(** * dexscraper: the token-mention scraper of [main.py]

    A shallow embedding of [TwitterTokenScraper] and the properties of
    its four methods: [get_list_members], [extract_token_mentions],
    [get_user_tweets] and [scrape_list_tokens]. *)

From stdpp Require Import strings list gmap pretty.
From Stdlib Require Import ZArith NArith Lia Ascii.

Set Default Proof Using "Type".

(** ** Text

    A Python [str] is a sequence of Unicode code points. *)

Abbreviation text := (list N).

(** A literal of the source, written as an ASCII string. *)
Definition lit (s : string) : text :=
  N_of_ascii <$> String.list_ascii_of_string s.
#[global] Arguments lit : simpl never.

Fixpoint text_eqb (a b : text) : bool :=
  match a, b with
  | [], [] => true
  | x :: a', y :: b' => N.eqb x y && text_eqb a' b'
  | _, _ => false
  end.

(** Python's [s[i:j]] for integer bounds: a negative bound counts from
    the end, and both are clamped to [0, len(s)]. *)
Definition clamp_index (len i : Z) : Z :=
  if (i <? 0)%Z then Z.max 0 (i + len) else Z.min i len.

Definition py_slice (s : text) (i j : Z) : text :=
  let len := Z.of_nat (length s) in
  let a := clamp_index len i in
  let b := clamp_index len j in
  take (Z.to_nat (b - a)) (drop (Z.to_nat a) s).

Definition DOLLAR : N := 36.
Definition UNDERSCORE : N := 95.

Definition is_upper (c : N) : bool := (65 <=? c)%N && (c <=? 90)%N.
Definition is_lower (c : N) : bool := (97 <=? c)%N && (c <=? 122)%N.
Definition is_digit (c : N) : bool := (48 <=? c)%N && (c <=? 57)%N.

(** [str.isspace] on the ASCII range: TAB..CR, FS..US and the space. *)
Definition ascii_space (c : N) : bool :=
  ((9 <=? c)%N && (c <=? 13)%N) || ((28 <=? c)%N && (c <=? 32)%N).

Section Scraper.

(** The Unicode character database is not part of the repository: the
    classification of the code points from 128 on is a parameter.
    [unicode_alnum c] stands for [chr(c).isalnum()] and
    [unicode_space c] for [chr(c).isspace()]. *)
Variable unicode_alnum : N -> bool.
Variable unicode_space : N -> bool.

(** [\w] of a [str] pattern: alphanumeric or underscore. *)
Definition is_word (c : N) : bool :=
  if (c <? 128)%N
  then is_upper c || is_lower c || is_digit c || (c =? UNDERSCORE)%N
  else unicode_alnum c.

Definition is_space (c : N) : bool :=
  if (c <? 128)%N then ascii_space c else unicode_space c.

(** [str.strip()] *)
Fixpoint lstrip (s : text) : text :=
  match s with
  | c :: s' => if is_space c then lstrip s' else s
  | [] => []
  end.

Definition rstrip (s : text) : text := rev (lstrip (rev s)).

Definition strip (s : text) : text := rstrip (lstrip s).

(** *** The pattern [\$([A-Z]{3,10})\b]

    The matcher follows the backtracking engine: the literal dollar, the
    greedy bounded repeat of [[A-Z]], then the word boundary, giving one
    letter back at a time while the boundary fails. *)

(** The greedy repeat takes as many capitals as there are, at most
    [limit]. *)
Fixpoint upper_run (s : text) (limit : nat) : nat :=
  match limit, s with
  | S l, c :: s' => if is_upper c then S (upper_run s' l) else 0
  | _, _ => 0
  end.

Definition word_at (s : text) (p : nat) : bool :=
  match s !! p with
  | Some c => is_word c
  | None => false
  end.

(** [\b] at position [p]: exactly one of the characters before and
    after [p] is a word character; outside the text counts as none. *)
Definition at_boundary (s : text) (p : nat) : bool :=
  let that := match p with 0 => false | S q => word_at s q end in
  let this := word_at s p in
  xorb this that.

(** [k] capitals were taken from position [p]; try the boundary after
    them, then after one less, never under the minimum of three. *)
Fixpoint backtrack (s : text) (p k : nat) : option nat :=
  match k with
  | 0 => None
  | S k' =>
      if k <? 3 then None
      else if at_boundary s (p + k) then Some (p + k)
      else backtrack s p k'
  end.

(** A match beginning exactly at [i]; the result is its end. *)
Definition match_at (s : text) (i : nat) : option nat :=
  match s !! i with
  | Some c =>
      if (c =? DOLLAR)%N
      then backtrack s (S i) (upper_run (drop (S i) s) 10)
      else None
  | None => None
  end.

(** A match object: [start()] and [end()]. *)
Record rmatch := Match { m_start : nat; m_end : nat }.

(** [match.group(1)]: the capitals after the dollar. *)
Definition group1 (s : text) (m : rmatch) : text :=
  py_slice s (Z.of_nat (S (m_start m))) (Z.of_nat (m_end m)).

(** [re.finditer]: search from [pos]; after a match the search resumes
    at its end. [fuel] bounds the number of positions tried. *)
Fixpoint scan (fuel : nat) (s : text) (pos : nat) : list rmatch :=
  match fuel with
  | 0 => []
  | S fuel' =>
      if length s <? pos then []
      else match match_at s pos with
           | Some e => Match pos e :: scan fuel' s e
           | None => scan fuel' s (S pos)
           end
  end.

Definition finditer (s : text) : list rmatch := scan (S (length s)) s 0.

(** *** [extract_token_mentions] *)

Record mention := Mention { token : text; context : text }.

(** [text[start:end]] of lines 79-81, before [.strip()]. *)
Definition excerpt_window (s : text) (m : rmatch) : text :=
  let start := Z.max 0 (Z.of_nat (m_start m) - 100) in
  let end_ := Z.min (Z.of_nat (length s)) (Z.of_nat (m_end m) + 100) in
  py_slice s start end_.

Definition mention_of (s : text) (m : rmatch) : mention :=
  let token := group1 s m in
  let context := strip (excerpt_window s m) in
  {| token := token; context := context |}.

Definition extract_token_mentions (s : text) : list mention :=
  mention_of s <$> finditer s.

(** The pattern in the words of the specification: a dollar sign at
    [i], then [k] capitals with [3 <= k <= 10], not followed by a word
    character. *)
Definition pattern_at (s : text) (i k : nat) : Prop :=
  s !! i = Some DOLLAR ∧ 3 ≤ k ≤ 10 ∧
  (∀ j, j < k → ∃ c, s !! (S i + j) = Some c ∧ is_upper c = true) ∧
  (∀ c, s !! (S i + k) = Some c → is_word c = false).

(** Spans [(i, k)] listed left to right from [pos] on, none reaching
    into the next. *)
Fixpoint left_to_right (pos : nat) (spans : list (nat * nat)) : Prop :=
  match spans with
  | [] => True
  | (i, k) :: rest => pos ≤ i ∧ left_to_right (S i + k) rest
  end.

(** [s[a:b]] for natural bounds. *)
Definition sub (s : text) (a b : nat) : text := take (b - a) (drop a s).

(** The span [(i, k)] of a match: its start and its number of capitals. *)
Definition span_of (m : rmatch) : nat * nat :=
  (m_start m, m_end m - S (m_start m)).

(** A dollar sign at [i] followed by [k] capitals. *)
Definition dollar_run (s : text) (i k : nat) : Prop :=
  s !! i = Some DOLLAR ∧
  ∀ j, j < k → ∃ c, s !! (S i + j) = Some c ∧ is_upper c = true.

(** ** Values

    What [response.json()] returns: the Python image of a JSON value. A
    [dict] keeps its items in insertion order; its keys are distinct,
    and a lookup takes the first item with the key. A float is kept as
    its 64 bits. *)
#[local] Set Warnings "-register-all".

Inductive pyval :=
| PNone
| PBool (b : bool)
| PInt (n : Z)
| PFloat (bits : Z)
| PStr (s : text)
| PList (items : list pyval)
| PDict (items : list (text * pyval)).

Abbreviation pydict := (list (text * pyval)).

Inductive exn :=
| RequestException (cause : text)  (* a transport fault of [requests.get] *)
| HTTPError (status : Z)           (* [raise_for_status] *)
| JSONDecodeError                  (* [response.json()] on a body that is not JSON *)
| KeyError (key : text)
| TypeError
| AttributeError
| ValueError
| OSError
| OverflowError                    (* [timedelta], or a date out of range *)
| UnicodeEncodeError.              (* a text that UTF-8 cannot encode *)

Inductive result (A : Type) :=
| Ok (a : A)
| Raise (e : exn).
#[global] Arguments Ok {A} a.
#[global] Arguments Raise {A} e.

Definition result_bind {A B} (r : result A) (k : A → result B) : result B :=
  match r with
  | Ok a => k a
  | Raise e => Raise e
  end.

(** [d.get(k)] on the items of a dict. *)
Fixpoint dict_get (d : pydict) (k : text) : option pyval :=
  match d with
  | [] => None
  | (k', v) :: d' => if text_eqb k' k then Some v else dict_get d' k
  end.

Definition dict_keys (d : pydict) : list text := fst <$> d.

(** [v.get(k, default)]: only a dict has the method. *)
Definition py_get (v : pyval) (k : text) (default : pyval) : result pyval :=
  match v with
  | PDict d => Ok (from_option id default (dict_get d k))
  | _ => Raise AttributeError
  end.

(** [v[k]] for a string key [k]. *)
Definition py_getitem (v : pyval) (k : text) : result pyval :=
  match v with
  | PDict d =>
      match dict_get d k with
      | Some x => Ok x
      | None => Raise (KeyError k)
      end
  | _ => Raise TypeError
  end.

(** [for x in v]: a list gives its items, a dict its keys, a string its
    characters; nothing else can be iterated. *)
Definition py_iter (v : pyval) : result (list pyval) :=
  match v with
  | PList items => Ok items
  | PDict d => Ok (PStr <$> dict_keys d)
  | PStr s => Ok ((λ c, PStr [c]) <$> s)
  | _ => Raise TypeError
  end.

Fixpoint result_map {A B} (f : A → result B) (l : list A) : result (list B) :=
  match l with
  | [] => Ok []
  | x :: l' =>
      result_bind (f x) (λ y,
      result_bind (result_map f l') (λ ys, Ok (y :: ys)))
  end.

(** ** The world of a run *)

(** What a request meets: a transport fault, or a response with its
    status and its body, [None] when the body is not JSON. *)
Inductive http_outcome :=
| Fault (cause : text)
| Response (status : Z) (body : option pyval).

Inductive endpoint :=
| ListMembers (list_id : text)            (* /lists/{list_id}/members *)
| UserTweets (user_id : pyval).           (* /users/{user_id}/tweets *)

(** The query of the user-posts call; [start_time] in microseconds. *)
Record query := Query {
  max_results : Z;
  tweet_fields : text;
  start_time : Z
}.

Record request := Request {
  url : endpoint;
  authorization : text;   (* the bearer token of the header *)
  params : option query
}.

Inductive level := INFO | WARNING | ERROR.

Inductive message :=
| ErrorFetchingListMembers (e : exn)
| ErrorFetchingTweets (user_id : pyval) (e : exn)
| ScrapingTweets (user_id : pyval)
| MentionsSaved (output_file : text)
| NoMentionsFound.

Record world := World {
  net : nat → http_outcome;   (* what the n-th request of the run meets *)
  calls : nat;                (* requests issued so far *)
  sent : list request;        (* the requests issued, oldest first *)
  clock : nat → Z;            (* the n-th reading of the UTC clock *)
  reads : nat;                (* readings so far *)
  slept : Z;                  (* seconds spent in [time.sleep] *)
  log : list (level * message);
  log_time : nat → Z;         (* the time stamped on the n-th log record *)
  writable : text → bool;     (* can the path be opened for writing? *)
  fs : gmap text text         (* the files by path, two paths being two files *)
}.

(** Computations of the scraper: a result or an exception, and the
    world after. *)
Definition M (A : Type) : Type := world → result A * world.

Definition ret {A} (a : A) : M A := λ w, (Ok a, w).

Definition raise {A} (e : exn) : M A := λ w, (Raise e, w).

Definition bind {A B} (m : M A) (k : A → M B) : M B :=
  λ w, match m w with
       | (Ok a, w') => k a w'
       | (Raise e, w') => (Raise e, w')
       end.

Definition lift {A} (r : result A) : M A := λ w, (r, w).

#[global] Instance M_ret : MRet M := @ret.
#[global] Instance M_bind : MBind M := λ A B k m, bind m k.

(** [requests.RequestException] and its subclasses. Whether the error
    of [response.json()] is one depends on the version of [requests]:
    that is the parameter [json_error_is_request_exception]. *)
Variable json_error_is_request_exception : bool.

Definition is_request_exception (e : exn) : bool :=
  match e with
  | RequestException _ | HTTPError _ => true
  | JSONDecodeError => json_error_is_request_exception
  | _ => false
  end.

(** [try: body  except requests.RequestException as e: handler] *)
Definition try_except {A} (body : M A) (handler : exn → M A) : M A :=
  λ w, match body w with
       | (Ok a, w') => (Ok a, w')
       | (Raise e, w') =>
           if is_request_exception e then handler e w' else (Raise e, w')
       end.

(** *** Primitive effects *)

(** The file of the log: [logging.basicConfig(filename=...)], line 38. *)
Definition LOG_FILE : text := lit "twitter_scraper.log".

(** The text that the handler of the log adds to its file for a record
    stamped with a time: the [logging] module is not part of the
    repository. The handler keeps its own errors to itself: a record
    that it cannot write adds nothing, and the program goes on. *)
Variable log_record : Z → level → message → text.

Definition sent_request (r : request) (w : world) : world :=
  {| net := net w; calls := S (calls w); sent := sent w ++ [r];
     clock := clock w; reads := reads w; slept := slept w;
     log := log w; log_time := log_time w;
     writable := writable w; fs := fs w |}.

Definition read_clock (w : world) : world :=
  {| net := net w; calls := calls w; sent := sent w;
     clock := clock w; reads := S (reads w); slept := slept w;
     log := log w; log_time := log_time w;
     writable := writable w; fs := fs w |}.

Definition slept_for (seconds : Z) (w : world) : world :=
  {| net := net w; calls := calls w; sent := sent w;
     clock := clock w; reads := reads w; slept := (slept w + seconds)%Z;
     log := log w; log_time := log_time w;
     writable := writable w; fs := fs w |}.

(** A record is logged: it joins the log, and its line, stamped with
    the time of the record, goes to the end of the log file. *)
Definition logged (l : level) (msg : message) (w : world) : world :=
  {| net := net w; calls := calls w; sent := sent w;
     clock := clock w; reads := reads w; slept := slept w;
     log := log w ++ [(l, msg)]; log_time := log_time w;
     writable := writable w;
     fs := <[LOG_FILE :=
               default [] (fs w !! LOG_FILE)
                 ++ log_record (log_time w (length (log w))) l msg]> (fs w) |}.

Definition set_fs (f : gmap text text) (w : world) : world :=
  {| net := net w; calls := calls w; sent := sent w;
     clock := clock w; reads := reads w; slept := slept w;
     log := log w; log_time := log_time w;
     writable := writable w; fs := f |}.

(** [requests.get]: the response, its status and body, or the
    exception of a transport fault. *)
Definition requests_get (r : request) : M (Z * option pyval) :=
  λ w, match net w (calls w) with
       | Fault cause => (Raise (RequestException cause), sent_request r w)
       | Response status body => (Ok (status, body), sent_request r w)
       end.

(** [response.raise_for_status()]: the client and server errors. *)
Definition raise_for_status (response : Z * option pyval) : M unit :=
  if ((400 <=? response.1) && (response.1 <? 600))%Z
  then raise (HTTPError response.1)
  else ret tt.

(** [response.json()] *)
Definition response_json (response : Z * option pyval) : M pyval :=
  match response.2 with
  | Some v => ret v
  | None => raise JSONDecodeError
  end.

(** [datetime.utcnow()] *)
Definition utcnow : M Z := λ w, (Ok (clock w (reads w)), read_clock w).

(** [time.sleep(seconds)] *)
Definition sleep (seconds : Z) : M unit := λ w, (Ok tt, slept_for seconds w).

(** [self.logger.error], [.info] and [.warning] *)
Definition logger (l : level) (msg : message) : M unit :=
  λ w, (Ok tt, logged l msg w).

(** [open(path, 'w', ...)]: the file is created or emptied. *)
Definition open_w (path : text) : M text :=
  λ w, if writable w path
       then (Ok path, set_fs (<[path := []]> (fs w)) w)
       else (Raise OSError, w).

(** The file is opened with [encoding='utf-8'], which has no code for
    the surrogates U+D800 to U+DFFF. *)
Definition is_surrogate (c : N) : bool := (55296 <=? c)%N && (c <=? 57343)%N.

Definition encodable (data : text) : bool :=
  forallb (λ c, negb (is_surrogate c)) data.

(** Writing to the open file adds to its end; a text that cannot be
    encoded is an error and adds nothing. *)
Definition file_write (path : text) (data : text) : M unit :=
  λ w, if encodable data
       then (Ok tt,
             set_fs (<[path := default [] (fs w !! path) ++ data]> (fs w)) w)
       else (Raise UnicodeEncodeError, w).

(** ** The scraper *)

Record scraper := Scraper { bearer_token : text; list_id : text }.

Definition members_request (self : scraper) : request :=
  {| url := ListMembers (list_id self);
     authorization := bearer_token self;
     params := None |}.

Definition get_list_members (self : scraper) : M (list pyval) :=
  try_except
    (response ← requests_get (members_request self);
     raise_for_status response;;
     body ← response_json response;
     members ← lift (py_get body (lit "data") (PList []));
     members ← lift (py_iter members);
     lift (result_map (λ member, py_getitem member (lit "id")) members))
    (λ e, logger ERROR (ErrorFetchingListMembers e);; mret []).

(** The method [extract_token_mentions], called on a value: [re.finditer]
    takes a string only. *)
Definition extract_token_mentions_of (self : scraper) (v : pyval)
  : M (list mention) :=
  match v with
  | PStr s => mret (extract_token_mentions s)
  | _ => raise TypeError
  end.

(** The record appended for one mention (lines 122-128). *)
Definition token_tweet (user_id tweet : pyval) (mt : mention) : result pydict :=
  result_bind (py_getitem tweet (lit "id")) (λ tweet_id,
  result_bind (py_getitem tweet (lit "created_at")) (λ created_at,
  Ok [ (lit "user_id", user_id);
       (lit "tweet_id", tweet_id);
       (lit "created_at", created_at);
       (lit "token", PStr (token mt));
       (lit "narrative", PStr (context mt)) ])).

(** The body of the loop over the posts (lines 118-128): the records of
    one post. *)
Definition tweet_records (self : scraper) (user_id tweet : pyval)
  : M (list pydict) :=
  text ← lift (py_getitem tweet (lit "text"));
  token_mentions ← extract_token_mentions_of self text;
  match token_mentions with
  | [] => mret []
  | _ => lift (result_map (token_tweet user_id tweet) token_mentions)
  end.

(** The loop over the posts, [token_tweets] growing at its end. *)
Fixpoint for_tweets (self : scraper) (user_id : pyval)
    (tweets_data : list pyval) (token_tweets : list pydict) : M (list pydict) :=
  match tweets_data with
  | [] => mret token_tweets
  | tweet :: rest =>
      records ← tweet_records self user_id tweet;
      for_tweets self user_id rest (token_tweets ++ records)
  end.

Definition MICROSECONDS_PER_DAY : Z := 86400000000.

(** Times are microseconds from 1970-01-01T00:00:00. A [datetime] lies
    between 0001-01-01T00:00:00 and 9999-12-31T23:59:59.999999. *)
Definition DATETIME_MIN : Z := -62135596800000000.
Definition DATETIME_MAX : Z := 253402300799999999.

(** [timedelta(days=days)]: at most 999999999 days either way. *)
Definition timedelta (days : Z) : result Z :=
  if ((-999999999 <=? days) && (days <=? 999999999))%Z
  then Ok (days * MICROSECONDS_PER_DAY)%Z
  else Raise OverflowError.

(** [now - delta] for a reading [now] of the system clock: the result
    must be a [datetime]. The system clock reads a time from 1970 to
    9999; for another [now], which [utcnow] cannot give, the model lets
    the difference through. *)
Definition datetime_sub (now delta : Z) : result Z :=
  let r := (now - delta)%Z in
  if ((DATETIME_MIN <=? r) && (r <=? DATETIME_MAX))%Z then Ok r
  else if ((0 <=? now) && (now <=? DATETIME_MAX))%Z then Raise OverflowError
  else Ok r.

Definition tweets_request (self : scraper) (user_id : pyval) (start_time : Z)
  : request :=
  {| url := UserTweets user_id;
     authorization := bearer_token self;
     params := Some {| max_results := 100;
                       tweet_fields := lit "created_at,text";
                       start_time := start_time |} |}.

Definition get_user_tweets (self : scraper) (user_id : pyval) (days : Z)
  : M (list pydict) :=
  now ← utcnow;
  delta ← lift (timedelta days);
  start_time ← lift (datetime_sub now delta);
  try_except
    (response ← requests_get (tweets_request self user_id start_time);
     raise_for_status response;;
     body ← response_json response;
     tweets_data ← lift (py_get body (lit "data") (PList []));
     tweets_data ← lift (py_iter tweets_data);
     for_tweets self user_id tweets_data [])
    (λ e, logger ERROR (ErrorFetchingTweets user_id e);; mret []).

(** *** Writing the table *)

(** The line [csv.writer] makes of a row; the [csv] module is not part
    of the repository. *)
Variable csv_row : list pyval → text.

Definition text_in (k : text) (l : list text) : bool :=
  existsb (text_eqb k) l.

(** [DictWriter._dict_to_list]: a key outside the field names is an
    error, a missing one gives the empty string. *)
Definition dict_to_list (fieldnames : list text) (rowdict : pydict)
  : result (list pyval) :=
  if forallb (λ k, text_in k fieldnames) (dict_keys rowdict)
  then Ok ((λ key, default (PStr []) (dict_get rowdict key)) <$> fieldnames)
  else Raise ValueError.

Definition writerow (csvfile : text) (fieldnames : list text) (rowdict : pydict)
  : M unit :=
  row ← lift (dict_to_list fieldnames rowdict);
  file_write csvfile (csv_row row).

(** [DictWriter.writeheader]: the row of the field names themselves. *)
Definition writeheader (csvfile : text) (fieldnames : list text) : M unit :=
  writerow csvfile fieldnames ((λ k, (k, PStr k)) <$> fieldnames).

Fixpoint writerows (csvfile : text) (fieldnames : list text)
    (rowdicts : list pydict) : M unit :=
  match rowdicts with
  | [] => mret tt
  | rowdict :: rest =>
      writerow csvfile fieldnames rowdict;;
      writerows csvfile fieldnames rest
  end.

(** *** The run *)

(** The loop over the members (lines 149-156). *)
Fixpoint for_members (self : scraper) (list_members : list pyval)
    (all_token_mentions : list pydict) : M (list pydict) :=
  match list_members with
  | [] => mret all_token_mentions
  | user_id :: rest =>
      logger INFO (ScrapingTweets user_id);;
      sleep 1;;
      user_tweets ← get_user_tweets self user_id 7;
      for_members self rest (all_token_mentions ++ user_tweets)
  end.

(** Lines 158-168. *)
Definition write_csv (output_file : text) (all_token_mentions : list pydict)
  : M unit :=
  match all_token_mentions with
  | first :: _ =>
      let keys := dict_keys first in
      csvfile ← open_w output_file;
      writeheader csvfile keys;;
      writerows csvfile keys all_token_mentions;;
      logger INFO (MentionsSaved output_file)
  | [] => logger WARNING NoMentionsFound
  end.

Definition scrape_list_tokens (self : scraper) (output_file : text) : M unit :=
  list_members ← get_list_members self;
  all_token_mentions ← for_members self list_members [];
  write_csv output_file all_token_mentions.

(** ** The results of the methods as functions of what the request met

    After the request nothing in the [try] blocks touches the world, so
    the result of each method is a function of the outcome of its one
    request. These functions are what the lemmas below unfold. *)

(** The body after [requests.get], [raise_for_status] and [json()]. *)
Definition fetched (o : http_outcome) : result pyval :=
  match o with
  | Fault cause => Raise (RequestException cause)
  | Response status body =>
      if ((400 <=? status) && (status <? 600))%Z then Raise (HTTPError status)
      else match body with
           | Some v => Ok v
           | None => Raise JSONDecodeError
           end
  end.

(** The items looped over: [response.json().get('data', [])]. *)
Definition data_of (body : pyval) : result (list pyval) :=
  result_bind (py_get body (lit "data") (PList [])) py_iter.

Definition members_result (o : http_outcome) : result (list pyval) :=
  result_bind (fetched o) (λ body,
  result_bind (data_of body)
    (result_map (λ member, py_getitem member (lit "id")))).

Definition tweet_result (user_id tweet : pyval) : result (list pydict) :=
  result_bind (py_getitem tweet (lit "text")) (λ text,
    match text with
    | PStr s =>
        match extract_token_mentions s with
        | [] => Ok []
        | ms => result_map (token_tweet user_id tweet) ms
        end
    | _ => Raise TypeError
    end).

Fixpoint tweets_result (user_id : pyval) (tweets : list pyval)
    (acc : list pydict) : result (list pydict) :=
  match tweets with
  | [] => Ok acc
  | tweet :: rest =>
      result_bind (tweet_result user_id tweet) (λ records,
        tweets_result user_id rest (acc ++ records))
  end.

Definition user_tweets_result (user_id : pyval) (o : http_outcome)
  : result (list pydict) :=
  result_bind (fetched o) (λ body,
  result_bind (data_of body) (λ tweets, tweets_result user_id tweets [])).

(** The exception the handler takes, if any, and the result then. *)
Definition caught {A} (r : result A) : option exn :=
  match r with
  | Raise e => if is_request_exception e then Some e else None
  | Ok _ => None
  end.

Definition recovered {A} (r : result (list A)) : result (list A) :=
  match caught r with
  | Some _ => Ok []
  | None => r
  end.

(** The world after a method: the request is counted, and the error
    logged when the handler took one. *)
Definition after_request (r : request) (err : option message) (w : world)
  : world :=
  match err with
  | Some msg => logged ERROR msg (sent_request r w)
  | None => sent_request r w
  end.

(** The start time of line 101, or its error. *)
Definition start_of (now days : Z) : result Z :=
  result_bind (timedelta days) (datetime_sub now).

(** ** The claims in the words of the specification *)

(** The look-back of [days] days from [now] can be computed: [days] is
    in the range of [timedelta] and the start is a [datetime]. *)
Definition window_fits (now days : Z) : Prop :=
  start_of now days = Ok (now - days * MICROSECONDS_PER_DAY)%Z.

(** The lines that reach a file opened for UTF-8: those before the
    first that cannot be encoded. *)
Fixpoint encodable_prefix (lines : list text) : list text :=
  match lines with
  | [] => []
  | line :: rest =>
      if encodable line then line :: encodable_prefix rest else []
  end.

(** Every file but those of [paths] is in [f'] as in [f]. *)
Definition unchanged_but (paths : list text) (f f' : gmap text text) : Prop :=
  ∀ p, p ∉ paths → f' !! p = f !! p.

(** A transport fault or a client or server error status: the
    exception the call raises. *)
Definition failure_of (o : http_outcome) : option exn :=
  match o with
  | Fault cause => Some (RequestException cause)
  | Response status _ =>
      if ((400 <=? status) && (status <? 600))%Z then Some (HTTPError status)
      else None
  end.

(** The request met a response without error status whose body is a
    JSON object. *)
Definition answers (o : http_outcome) (body : pydict) : Prop :=
  ∃ status, o = Response status (Some (PDict body)) ∧
            ¬ (400 ≤ status < 600)%Z.

(** The same, with the list [items] in the field [data]. *)
Definition serves (o : http_outcome) (items : list pyval) : Prop :=
  ∃ body, answers o body ∧ dict_get body (lit "data") = Some (PList items).

(** A member object with its identifier. *)
Definition has_id (member id : pyval) : Prop :=
  ∃ d, member = PDict d ∧ dict_get d (lit "id") = Some id.

(** A post as the API documents it: an object with an identifier, a
    creation time and a text. *)
Record post := Post { post_id : pyval; post_created_at : pyval; post_text : text }.

Definition is_post (tweet : pyval) (p : post) : Prop :=
  ∃ d, tweet = PDict d ∧
       dict_get d (lit "text") = Some (PStr (post_text p)) ∧
       dict_get d (lit "id") = Some (post_id p) ∧
       dict_get d (lit "created_at") = Some (post_created_at p).

(** The MentionRecord of a mention of a post of an account. *)
Definition mention_record (user_id : pyval) (p : post) (mt : mention) : pydict :=
  [ (lit "user_id", user_id);
    (lit "tweet_id", post_id p);
    (lit "created_at", post_created_at p);
    (lit "token", PStr (token mt));
    (lit "narrative", PStr (context mt)) ].

(** One record per mention of the text of the post, in the order of the
    mentions. *)
Definition post_records (user_id : pyval) (p : post) : list pydict :=
  mention_record user_id p <$> extract_token_mentions (post_text p).

Definition account_records (user_id : pyval) (posts : list post) : list pydict :=
  concat (post_records user_id <$> posts).

(** What the posts request of an account met: a response listing the
    posts, or a failure, after which the account has no posts for the
    run. *)
Definition feeds (o : http_outcome) (posts : list post) : Prop :=
  (∃ tweets, serves o tweets ∧ Forall2 is_post tweets posts) ∨
  (failure_of o ≠ None ∧ posts = []).

(** What the loop body does with a post object, by the fields it has. *)
Inductive post_outcome (user_id : pyval) : pyval → result (list pydict) → Prop :=
| po_no_text d :
    dict_get d (lit "text") = None →
    post_outcome user_id (PDict d) (Raise (KeyError (lit "text")))
| po_no_mention d s :
    dict_get d (lit "text") = Some (PStr s) →
    extract_token_mentions s = [] →
    post_outcome user_id (PDict d) (Ok [])
| po_no_id d s :
    dict_get d (lit "text") = Some (PStr s) →
    extract_token_mentions s ≠ [] →
    dict_get d (lit "id") = None →
    post_outcome user_id (PDict d) (Raise (KeyError (lit "id")))
| po_no_created_at d s tweet_id :
    dict_get d (lit "text") = Some (PStr s) →
    extract_token_mentions s ≠ [] →
    dict_get d (lit "id") = Some tweet_id →
    dict_get d (lit "created_at") = None →
    post_outcome user_id (PDict d) (Raise (KeyError (lit "created_at")))
| po_records d p :
    is_post (PDict d) p →
    post_outcome user_id (PDict d) (Ok (post_records user_id p)).

(** The row of a record under the field names. *)
Definition row_of (fieldnames : list text) (rowdict : pydict) : list pyval :=
  (λ key, default (PStr []) (dict_get rowdict key)) <$> fieldnames.

(** The text of a table: the line of the header, then a line per row. *)
Definition table (header : list pyval) (rows : list (list pyval)) : text :=
  csv_row header ++ concat (csv_row <$> rows).

(** Its lines, in the order in which they are written. *)
Definition table_lines (header : list pyval) (rows : list (list pyval))
  : list text :=
  csv_row header :: (csv_row <$> rows).

(** Two worlds whose requests meet the same outcomes from now on. *)
Definition same_responses (w1 w2 : world) : Prop :=
  ∀ n, net w1 (calls w1 + n) = net w2 (calls w2 + n).

(** The part of the run before the table is written (lines 144-156). *)
Definition gather (self : scraper) : M (list pydict) :=
  list_members ← get_list_members self;
  for_members self list_members [].

(** The keys of a record, in the order of the dict literal. *)
Definition record_keys : list text :=
  [lit "user_id"; lit "tweet_id"; lit "created_at"; lit "token"; lit "narrative"].

Definition keyed (rowdict : pydict) : Prop := dict_keys rowdict = record_keys.

(** The files after a run that wrote [written] to [path], or nothing. *)
Definition written_to (path : text) (written : option text)
    (f : gmap text text) : gmap text text :=
  match written with
  | Some data => <[path := data]> f
  | None => f
  end.

(** ** Sample inputs for the examples *)

(** No character from 128 on is alphanumeric or white space. *)
Definition ascii_only : N → bool := λ _, false.

(** A stand-in for the writer: the string fields as they are, commas
    between them, then CR LF. *)
Definition plain_field (v : pyval) : text :=
  match v with
  | PStr s => s
  | _ => []
  end.

Definition plain_row (row : list pyval) : text :=
  match row with
  | [] => [13%N; 10%N]
  | v :: vs =>
      plain_field v ++ concat ((λ v', 44%N :: plain_field v') <$> vs)
        ++ [13%N; 10%N]
  end.

(** A stand-in for the handler of the log: the time, the level and a
    short text, then a line feed. *)
Definition level_name (l : level) : text :=
  match l with
  | INFO => lit "INFO"
  | WARNING => lit "WARNING"
  | ERROR => lit "ERROR"
  end.

Definition message_text (msg : message) : text :=
  match msg with
  | ErrorFetchingListMembers _ => lit "Error fetching list members"
  | ErrorFetchingTweets _ _ => lit "Error fetching tweets"
  | ScrapingTweets _ => lit "Scraping tweets"
  | MentionsSaved output_file => lit "Token mentions saved to " ++ output_file
  | NoMentionsFound => lit "No token mentions found."
  end.

Definition plain_record (time : Z) (l : level) (msg : message) : text :=
  lit (pretty time) ++ lit " - " ++ level_name l ++ lit ": "
    ++ message_text msg ++ [10%N].

(** 100 dots, a mention, 100 dots. *)
Definition long_text : text :=
  replicate 100 46%N ++ lit "$BTC" ++ replicate 100 46%N.

Definition sample_scraper : scraper :=
  {| bearer_token := lit "token"; list_id := lit "84839422" |}.

(** A world at the start of a run: no request issued, no file. *)
Definition fresh_world (outcomes : nat → http_outcome) : world :=
  {| net := outcomes; calls := 0; sent := []; clock := λ _, 0%Z; reads := 0;
     slept := 0%Z; log := []; log_time := λ _, 0%Z;
     writable := λ _, true; fs := ∅ |}.

Definition ok_data (items : list pyval) : http_outcome :=
  Response 200 (Some (PDict [(lit "data", PList items)])).

Definition tweet_object (id created_at txt : string) : pyval :=
  PDict [ (lit "id", PStr (lit id));
          (lit "created_at", PStr (lit created_at));
          (lit "text", PStr (lit txt)) ].

Definition sample_tweets_1 : list pyval :=
  [ tweet_object "10" "2024-05-01T10:00:00.000Z" "Check out $BTC and $ETH today";
    tweet_object "11" "2024-05-01T11:00:00.000Z" "gm" ].

Definition sample_tweets_2 : list pyval :=
  [ tweet_object "20" "2024-05-02T09:30:00.000Z" "$SOL is up" ].

Definition sample_posts_1 : list post :=
  [ {| post_id := PStr (lit "10");
       post_created_at := PStr (lit "2024-05-01T10:00:00.000Z");
       post_text := lit "Check out $BTC and $ETH today" |};
    {| post_id := PStr (lit "11");
       post_created_at := PStr (lit "2024-05-01T11:00:00.000Z");
       post_text := lit "gm" |} ].

Definition sample_posts_2 : list post :=
  [ {| post_id := PStr (lit "20");
       post_created_at := PStr (lit "2024-05-02T09:30:00.000Z");
       post_text := lit "$SOL is up" |} ].

Definition sample_members : list pyval :=
  [ PDict [(lit "id", PStr (lit "1"))]; PDict [(lit "id", PStr (lit "2"))] ].

Definition sample_timeline : list (pyval * list post) :=
  [ (PStr (lit "1"), sample_posts_1); (PStr (lit "2"), sample_posts_2) ].

(** The members, then the posts of each; any later request times out. *)
Definition sample_outcomes (n : nat) : http_outcome :=
  match n with
  | 0 => ok_data sample_members
  | 1 => ok_data sample_tweets_1
  | 2 => ok_data sample_tweets_2
  | _ => Fault (lit "timed out")
  end.

Definition run_world : world := fresh_world sample_outcomes.

(** The same responses at another time, with a log and a file already
    there. *)
Definition later_world : world :=
  {| net := sample_outcomes; calls := 0; sent := [];
     clock := λ n, (1714600000000000 + Z.of_nat n)%Z; reads := 5;
     slept := 3%Z; log := [(WARNING, NoMentionsFound)];
     log_time := λ n, (1714600000000000 + Z.of_nat n)%Z;
     writable := λ _, true;
     fs := {[ lit "token_mentions.csv" := lit "old" ]} |}.

(** The members response was already received: the next request is the
    one for the posts of the first account. *)
Definition posts_world : world :=
  {| net := sample_outcomes; calls := 1; sent := []; clock := λ _, 0%Z;
     reads := 0; slept := 0%Z; log := []; log_time := λ _, 0%Z;
     writable := λ _, true; fs := ∅ |}.

Definition failing_world : world := fresh_world (λ _, Response 429 None).

(** The body the API sends when there is nothing to list. *)
Definition empty_body : pydict := [(lit "meta", PDict [(lit "result_count", PInt 0)])].

Definition empty_world : world :=
  fresh_world (λ _, Response 200 (Some (PDict empty_body))).

(** Objects with a field missing. *)
Definition member_without_id : pydict := [(lit "username", PStr (lit "bob"))].

Definition quiet_tweet_without_id : pydict :=
  [ (lit "created_at", PStr (lit "2024-05-01T10:00:00.000Z"));
    (lit "text", PStr (lit "gm")) ].

Definition loud_tweet_without_id : pydict :=
  [ (lit "created_at", PStr (lit "2024-05-01T12:00:00.000Z"));
    (lit "text", PStr (lit "$BTC to the moon")) ].

Definition broken_members_world : world :=
  fresh_world (λ _, ok_data [PDict [(lit "id", PStr (lit "1"))];
                              PDict member_without_id]).

Definition broken_posts_world : world :=
  fresh_world (λ _, ok_data [PDict quiet_tweet_without_id;
                              PDict loud_tweet_without_id]).

Definition quiet_posts_world : world :=
  fresh_world (λ _, ok_data [PDict quiet_tweet_without_id]).

(** One account, whose post has a lone surrogate, U+D800, before its
    mention: JSON can spell it, UTF-8 cannot. *)
Definition surrogate_tweet : pyval :=
  PDict [ (lit "id", PStr (lit "40"));
          (lit "created_at", PStr (lit "2024-05-03T08:00:00.000Z"));
          (lit "text", PStr (55296%N :: lit " $BTC")) ].

Definition surrogate_outcomes (n : nat) : http_outcome :=
  match n with
  | 0 => ok_data [PDict [(lit "id", PStr (lit "1"))]]
  | 1 => ok_data [surrogate_tweet]
  | _ => Fault (lit "timed out")
  end.

Definition surrogate_world : world := fresh_world surrogate_outcomes.

Definition sample_sentence : text := lit "Check out $BTC and $ETH today".

Definition output_path : text := lit "token_mentions.csv".

Definition sample_record (user_id tweet_id created_at tok narrative : string)
  : pydict :=
  [ (lit "user_id", PStr (lit user_id));
    (lit "tweet_id", PStr (lit tweet_id));
    (lit "created_at", PStr (lit created_at));
    (lit "token", PStr (lit tok));
    (lit "narrative", PStr (lit narrative)) ].

(** The records of the sample run. *)
Definition sample_records : list pydict :=
  [ sample_record "1" "10" "2024-05-01T10:00:00.000Z" "BTC"
      "Check out $BTC and $ETH today";
    sample_record "1" "10" "2024-05-01T10:00:00.000Z" "ETH"
      "Check out $BTC and $ETH today";
    sample_record "2" "20" "2024-05-02T09:30:00.000Z" "SOL" "$SOL is up" ].

(** The sample run when the records are gathered: three requests sent,
    two pauses, the two accounts named in the log and in its file. *)
Definition gathered_world : world :=
  {| net := sample_outcomes;
     calls := 3;
     sent := [ members_request sample_scraper;
               tweets_request sample_scraper (PStr (lit "1")) (-604800000000);
               tweets_request sample_scraper (PStr (lit "2")) (-604800000000) ];
     clock := λ _, 0%Z;
     reads := 2;
     slept := 2%Z;
     log := [ (INFO, ScrapingTweets (PStr (lit "1")));
              (INFO, ScrapingTweets (PStr (lit "2"))) ];
     log_time := λ _, 0%Z;
     writable := λ _, true;
     fs := {[ LOG_FILE :=
                plain_record 0 INFO (ScrapingTweets (PStr (lit "1"))) ++
                plain_record 0 INFO (ScrapingTweets (PStr (lit "2"))) ]} |}.

(** ** The entry point *)

(** [os.getenv(name, fallback)] on the environment of the process. *)
Definition getenv (environ : gmap text text) (name fallback : text) : text :=
  default fallback (environ !! name).

(** [TwitterTokenScraper(bearer_token, list_id)]: [__init__] keeps the
    two strings and configures the log, which opens the log file to add
    to it, creating it when it is not there. *)
Definition init (bearer_token list_id : text) : M scraper :=
  λ w, if writable w LOG_FILE
       then (Ok {| bearer_token := bearer_token; list_id := list_id |},
             set_fs (<[LOG_FILE := default [] (fs w !! LOG_FILE)]> (fs w)) w)
       else (Raise OSError, w).

Definition main (environ : gmap text text) : M unit :=
  let BEARER_TOKEN :=
    getenv environ (lit "TWITTER_BEARER_TOKEN") (lit "your_bearer_token_here") in
  let LIST_ID :=
    getenv environ (lit "TWITTER_LIST_ID") (lit "your_list_id_here") in
  scraper ← init BEARER_TOKEN LIST_ID;
  scrape_list_tokens scraper (lit "token_mentions.csv").

(** ** More words for the statements *)

(** The exception that the handler of a method takes, by what its
    request met: a transport fault, a client or server error status,
    and a body that is not JSON when the error of [json()] is a
    [RequestException]. *)
Definition handled (o : http_outcome) : option exn :=
  match o with
  | Fault cause => Some (RequestException cause)
  | Response status body =>
      if ((400 <=? status) && (status <? 600))%Z then Some (HTTPError status)
      else match body with
           | Some _ => None
           | None =>
               if json_error_is_request_exception then Some JSONDecodeError
               else None
           end
  end.

(** A value whose iteration gives nothing: the empty object and the
    empty string (the empty list apart). *)
Definition no_items (v : pyval) : bool :=
  match v with
  | PDict [] | PStr [] => true
  | _ => false
  end.

(** An item of the posts that is not an object, or whose [text] is not
    a string. *)
Definition ill_typed_post (tweet : pyval) : Prop :=
  (∀ d, tweet ≠ PDict d) ∨
  ∃ d v, tweet = PDict d ∧ dict_get d (lit "text") = Some v ∧ ∀ s, v ≠ PStr s.

(** A record as [get_user_tweets] builds it for the account: the five
    items in their order, a token of 3 to 10 capitals, a string as
    excerpt. *)
Definition well_shaped (user_id : pyval) (r : pydict) : Prop :=
  ∃ tweet_id created_at tok narrative,
    r = [ (lit "user_id", user_id);
          (lit "tweet_id", tweet_id);
          (lit "created_at", created_at);
          (lit "token", PStr tok);
          (lit "narrative", PStr narrative) ] ∧
    3 ≤ length tok ≤ 10 ∧
    Forall (λ c, is_upper c = true) tok.

(** A posts request of the scraper: 100 results, the two fields, a
    start seven days before some reading of the clock. *)
Definition weekly_request (self : scraper) (w : world) (r : request) : Prop :=
  ∃ user_id k,
    r = tweets_request self user_id (clock w k - 7 * MICROSECONDS_PER_DAY).

(** ** More sample inputs *)

Definition array_world : world :=
  fresh_world (λ _, Response 200 (Some (PList []))).

Definition null_data_body : pydict := [(lit "data", PNone)].

Definition null_data_world : world :=
  fresh_world (λ _, Response 200 (Some (PDict null_data_body))).

Definition tweet_with_null_text : pydict :=
  [ (lit "id", PStr (lit "30")); (lit "text", PNone) ].

Definition ill_typed_members_world : world :=
  fresh_world (λ _, ok_data [PDict [(lit "id", PStr (lit "1"))];
                              PStr (lit "2")]).

Definition ill_typed_posts_world : world :=
  fresh_world (λ _, ok_data [PDict quiet_tweet_without_id;
                              PDict tweet_with_null_text]).

Definition html_world : world := fresh_world (λ _, Response 200 None).



Definition sample_environ : gmap text text :=
  {[ lit "TWITTER_LIST_ID" := lit "84839422" ]}.

(** The sample run with a copy of an older table next to the output
    file. *)
Definition kept_world : world :=
  {| net := sample_outcomes; calls := 0; sent := []; clock := λ _, 0%Z;
     reads := 0; slept := 0%Z; log := []; log_time := λ _, 0%Z;
     writable := λ _, true;
     fs := {[ lit "token_mentions.bak" := lit "old" ]} |}.

(** The sample run at its end: the table in the output file, the three
    lines of the log in the log file. *)
Definition saved_world : world :=
  {| net := sample_outcomes;
     calls := 3;
     sent := [ members_request sample_scraper;
               tweets_request sample_scraper (PStr (lit "1")) (-604800000000);
               tweets_request sample_scraper (PStr (lit "2")) (-604800000000) ];
     clock := λ _, 0%Z;
     reads := 2;
     slept := 2%Z;
     log := [ (INFO, ScrapingTweets (PStr (lit "1")));
              (INFO, ScrapingTweets (PStr (lit "2")));
              (INFO, MentionsSaved output_path) ];
     log_time := λ _, 0%Z;
     writable := λ _, true;
     fs := <[output_path :=
               plain_row (PStr <$> record_keys) ++
               concat (plain_row <$> (row_of record_keys <$> sample_records))]>
             (<[LOG_FILE :=
                  plain_record 0 INFO (ScrapingTweets (PStr (lit "1"))) ++
                  plain_record 0 INFO (ScrapingTweets (PStr (lit "2"))) ++
                  plain_record 0 INFO (MentionsSaved output_path)]> ∅) |}.

Definition interior_text : text :=
  replicate 150 46%N ++ lit "$BTC" ++ replicate 150 46%N.

(** Two worlds that differ only in the log, in its file and in the
    file [path]. *)
Definition same_but_file (path : text) (w w' : world) : Prop :=
  calls w' = calls w ∧ sent w' = sent w ∧ reads w' = reads w ∧
  slept w' = slept w ∧ clock w' = clock w ∧
  unchanged_but [path; LOG_FILE] (fs w) (fs w').

(** ** Facts on slices *)

Lemma py_slice_sub (s : text) (a b : nat) :
  b ≤ length s → py_slice s (Z.of_nat a) (Z.of_nat b) = sub s a b.
Proof.
  intros Hb. unfold py_slice, sub, clamp_index.
  destruct (Z.ltb_spec (Z.of_nat a) 0); [lia|].
  destruct (Z.ltb_spec (Z.of_nat b) 0); [lia|].
  destruct (decide (a ≤ length s)) as [Ha|Ha].
  - rewrite !Z.min_l by lia. f_equal; [lia|]. f_equal. lia.
  - rewrite (Z.min_r (Z.of_nat a)) by lia. rewrite (Z.min_l (Z.of_nat b)) by lia.
    replace (Z.to_nat (Z.of_nat b - Z.of_nat (length s))) with 0 by lia.
    replace (b - a) with 0 by lia. reflexivity.
Qed.

Lemma sub_length (s : text) (a b : nat) :
  b ≤ length s → length (sub s a b) = b - a.
Proof. intros. unfold sub. rewrite length_take, length_drop. lia. Qed.

Lemma sub_app (s : text) (a b c : nat) :
  a ≤ b → b ≤ c → sub s a c = sub s a b ++ sub s b c.
Proof.
  intros Hab Hbc. unfold sub.
  replace (c - a) with ((b - a) + (c - b)) by lia.
  rewrite <- take_take_drop, drop_drop. do 3 f_equal. lia.
Qed.

Lemma sub_whole (s : text) : sub s 0 (length s) = s.
Proof. unfold sub. rewrite drop_0, Nat.sub_0_r. by apply take_ge. Qed.

Lemma sub_lookup (s : text) (a b j : nat) :
  j < b - a → sub s a b !! j = s !! (a + j).
Proof. intros. unfold sub. rewrite lookup_take_lt by lia. apply lookup_drop. Qed.

(** ** Facts on the character classes *)

Lemma is_upper_word (c : N) : is_upper c = true → is_word c = true.
Proof.
  unfold is_upper, is_word. intros H.
  apply andb_true_iff in H as [H1 H2].
  apply N.leb_le in H1, H2.
  destruct (N.ltb_spec c 128); [|lia].
  unfold is_upper. rewrite (proj2 (N.leb_le 65 c) H1), (proj2 (N.leb_le c 90) H2).
  reflexivity.
Qed.

Lemma is_upper_not_space (c : N) : is_upper c = true → is_space c = false.
Proof.
  unfold is_upper, is_space, ascii_space. intros H.
  apply andb_true_iff in H as [H1 H2].
  apply N.leb_le in H1, H2.
  destruct (N.ltb_spec c 128); [|lia].
  destruct (N.leb_spec c 13); [lia|]. destruct (N.leb_spec c 32); [lia|].
  by rewrite !andb_false_r.
Qed.

Lemma is_upper_not_dollar (c : N) : is_upper c = true → c ≠ DOLLAR.
Proof.
  unfold is_upper, DOLLAR. intros H ->. discriminate H.
Qed.

Lemma dollar_not_space : is_space DOLLAR = false.
Proof. reflexivity. Qed.

(** ** Facts on the matcher *)

Lemma upper_run_le (s : text) (limit : nat) : upper_run s limit ≤ limit.
Proof.
  revert s. induction limit as [|l IH]; intros [|c s]; simpl; try lia.
  destruct (is_upper c); [|lia]. specialize (IH s). lia.
Qed.

Lemma upper_run_all (s : text) (limit j : nat) :
  j < upper_run s limit → ∃ c, s !! j = Some c ∧ is_upper c = true.
Proof.
  revert s j. induction limit as [|l IH]; intros [|c s] j; simpl; try lia.
  destruct (is_upper c) eqn:Hc; [|lia].
  destruct j as [|j]; intros Hj.
  - exists c. by split.
  - apply (IH s j). lia.
Qed.

(** The run is exactly [k] when [k] capitals are there and the next
    character is not one. *)
Lemma upper_run_exact (s : text) (limit k : nat) :
  k ≤ limit →
  (∀ j, j < k → ∃ c, s !! j = Some c ∧ is_upper c = true) →
  (∀ c, s !! k = Some c → is_upper c = false) →
  upper_run s limit = k.
Proof.
  revert s k. induction limit as [|l IH]; intros s k Hk Hall Hstop.
  - destruct s; simpl; lia.
  - destruct s as [|c s]; simpl.
    + destruct k as [|k]; [done|].
      destruct (Hall 0) as (c & Hc & _); [lia|]. discriminate Hc.
    + destruct k as [|k].
      * by rewrite (Hstop c).
      * destruct (Hall 0) as (c' & Hc' & Hup); [lia|].
        injection Hc' as <-. rewrite Hup. f_equal.
        apply IH; [lia| |].
        -- intros j Hj. apply (Hall (S j)). lia.
        -- intros c'. apply (Hstop c').
Qed.

(** After a capital the boundary holds exactly when no word character
    follows. *)
Lemma at_boundary_after_upper (s : text) (p : nat) (c : N) :
  s !! p = Some c → is_upper c = true →
  at_boundary s (S p) = negb (word_at s (S p)).
Proof.
  intros Hp Hc. unfold at_boundary. cbv zeta iota beta.
  replace (word_at s p) with true
    by (unfold word_at; by rewrite Hp, (is_upper_word _ Hc)).
  by destruct (word_at s (S p)).
Qed.

(** With [r] capitals from [p] on, only the full run can end at a
    boundary: every shorter one is followed by a capital. *)
Lemma backtrack_run (s : text) (p r : nat) :
  (∀ j, j < r → ∃ c, s !! (p + j) = Some c ∧ is_upper c = true) →
  backtrack s p r =
    if (3 <=? r) && negb (word_at s (p + r)) then Some (p + r) else None.
Proof.
  induction r as [|r IH]; intros Hall; [done|].
  cbn [backtrack].
  destruct (Nat.ltb_spec (S r) 3) as [Hlt|Hge].
  { destruct (Nat.leb_spec 3 (S r)); [lia|done]. }
  destruct (Nat.leb_spec 3 (S r)); [|lia]. cbn [andb].
  destruct (Hall r) as (c & Hc & Hup); [lia|].
  replace (p + S r) with (S (p + r)) by lia.
  rewrite (at_boundary_after_upper s (p + r) c Hc Hup).
  destruct (word_at s (S (p + r))) eqn:Hw; cbn [negb]; [|done].
  rewrite IH by (intros j Hj; apply Hall; lia).
  unfold word_at. rewrite Hc, (is_upper_word _ Hup). cbn [negb].
  by rewrite andb_false_r.
Qed.

Lemma match_at_pattern (s : text) (i e : nat) :
  match_at s i = Some e ↔ ∃ k, e = S i + k ∧ pattern_at s i k.
Proof.
  unfold match_at, pattern_at.
  set (r := upper_run (drop (S i) s) 10).
  assert (Hrun : ∀ j, j < r → ∃ c, s !! (S i + j) = Some c ∧ is_upper c = true).
  { intros j Hj. destruct (upper_run_all _ _ _ Hj) as (c & Hc & Hup).
    rewrite lookup_drop in Hc. eauto. }
  assert (Hr : r ≤ 10) by apply upper_run_le.
  split.
  - destruct (s !! i) as [c|] eqn:Hi; [|done].
    destruct (N.eqb_spec c DOLLAR) as [->|]; [|done].
    rewrite (backtrack_run s (S i) r Hrun).
    destruct (Nat.leb_spec 3 r); [|done].
    destruct (word_at s (S i + r)) eqn:Hw; [done|]. cbn.
    intros [= <-]. exists r. repeat split; try done; try lia.
    intros c Hc. unfold word_at in Hw. simpl in Hw, Hc. by rewrite Hc in Hw.
  - intros (k & -> & Hi & Hk & Hall & Hstop). rewrite Hi.
    rewrite N.eqb_refl.
    assert (r = k) as Hrk.
    { apply upper_run_exact; [lia| |].
      - intros j Hj. rewrite lookup_drop. by apply Hall.
      - intros c. rewrite lookup_drop. intros Hc.
        destruct (is_upper c) eqn:Hup; [|done].
        specialize (Hstop c Hc). by rewrite (is_upper_word _ Hup) in Hstop. }
    rewrite (backtrack_run s (S i) r Hrun), Hrk.
    destruct (Nat.leb_spec 3 k); [|lia].
    unfold word_at. destruct (s !! (S i + k)) as [c|] eqn:Hc; [|done].
    by rewrite (Hstop c).
Qed.

Lemma pattern_at_unique (s : text) (i k k' : nat) :
  pattern_at s i k → pattern_at s i k' → k = k'.
Proof.
  intros H H'.
  assert (match_at s i = Some (S i + k)) as E by (apply match_at_pattern; eauto).
  assert (match_at s i = Some (S i + k')) as E' by (apply match_at_pattern; eauto).
  rewrite E in E'. injection E'. lia.
Qed.

Lemma match_at_bounds (s : text) (i e : nat) :
  match_at s i = Some e → i + 4 ≤ e ∧ e ≤ i + 11 ∧ e ≤ length s.
Proof.
  intros H. apply match_at_pattern in H as (k & -> & _ & Hk & Hall & _).
  destruct (Hall (k - 1)) as (c & Hc & _); [lia|].
  apply lookup_lt_Some in Hc. lia.
Qed.

(** No match begins inside another: the inside holds capitals only. *)
Lemma match_at_inner (s : text) (i e j : nat) :
  match_at s i = Some e → i < j < e → match_at s j = None.
Proof.
  intros H Hj. apply match_at_pattern in H as (k & -> & _ & _ & Hall & _).
  destruct (Hall (j - S i)) as (c & Hc & Hup); [lia|].
  replace (S i + (j - S i)) with j in Hc by lia.
  unfold match_at. rewrite Hc.
  destruct (N.eqb_spec c DOLLAR) as [->|]; [|done].
  by apply is_upper_not_dollar in Hup.
Qed.

(** Fuel beyond the positions left changes nothing. *)
Lemma scan_fuel (s : text) (f g pos : nat) :
  S (length s) - pos ≤ f → S (length s) - pos ≤ g → scan f s pos = scan g s pos.
Proof.
  revert g pos. induction f as [|f IH]; intros g pos Hf Hg.
  - destruct g as [|g]; [done|]. simpl.
    destruct (Nat.ltb_spec (length s) pos); [done|lia].
  - destruct g as [|g]; simpl.
    + destruct (Nat.ltb_spec (length s) pos); [done|lia].
    + destruct (Nat.ltb_spec (length s) pos); [done|].
      destruct (match_at s pos) as [e|] eqn:He.
      * apply match_at_bounds in He. f_equal. apply IH; lia.
      * apply IH; lia.
Qed.

Lemma scan_sound (s : text) (f pos : nat) (m : rmatch) :
  m ∈ scan f s pos → pos ≤ m_start m ∧ match_at s (m_start m) = Some (m_end m).
Proof.
  revert pos. induction f as [|f IH]; intros pos; simpl.
  { intros H. by apply elem_of_nil in H. }
  destruct (Nat.ltb_spec (length s) pos) as [Hlt|Hle].
  { intros H. by apply elem_of_nil in H. }
  destruct (match_at s pos) as [e|] eqn:He.
  - intros [->|Hin]%elem_of_cons; [by split|].
    apply match_at_bounds in He. apply IH in Hin. split; [lia|tauto].
  - intros Hin. apply IH in Hin. split; [lia|tauto].
Qed.

Lemma scan_complete (s : text) (f pos i e : nat) :
  S (length s) - pos ≤ f → pos ≤ i → match_at s i = Some e →
  Match i e ∈ scan f s pos.
Proof.
  revert pos. induction f as [|f IH]; intros pos Hf Hpos Hi.
  { apply match_at_bounds in Hi. lia. }
  simpl. pose proof (match_at_bounds _ _ _ Hi) as Hb.
  destruct (Nat.ltb_spec (length s) pos); [lia|].
  destruct (match_at s pos) as [e0|] eqn:He0.
  - destruct (decide (i = pos)) as [->|Hne].
    + rewrite Hi in He0. injection He0 as <-. apply elem_of_cons; by left.
    + apply elem_of_cons; right.
      pose proof (match_at_bounds _ _ _ He0).
      destruct (decide (i < e0)) as [Hin|Hout].
      * rewrite (match_at_inner s pos e0 i He0) in Hi by lia. done.
      * apply IH; [lia|lia|done].
  - destruct (decide (i = pos)) as [->|Hne]; [congruence|].
    apply IH; [lia|lia|done].
Qed.

Lemma scan_left_to_right (s : text) (f pos : nat) :
  left_to_right pos (span_of <$> scan f s pos).
Proof.
  revert pos. induction f as [|f IH]; intros pos; simpl; [done|].
  destruct (Nat.ltb_spec (length s) pos); [done|].
  destruct (match_at s pos) as [e|] eqn:He.
  - simpl. split; [done|]. apply match_at_bounds in He.
    replace (S (pos + (e - S pos))) with e by lia. apply IH.
  - specialize (IH (S pos)).
    destruct (span_of <$> scan f s (S pos)) as [|[i k] rest]; [done|].
    simpl in *. split; [lia|tauto].
Qed.

(** ** Facts on [strip] *)

Lemma lstrip_suffix (s : text) : ∃ a, s = a ++ lstrip s.
Proof.
  induction s as [|c s [a IH]]; [by exists []|]. simpl.
  destruct (is_space c).
  - exists (c :: a). simpl. by f_equal.
  - by exists [].
Qed.

Lemma rstrip_prefix (s : text) : ∃ b, s = rstrip s ++ b.
Proof.
  unfold rstrip. destruct (lstrip_suffix (rev s)) as [a Ha].
  exists (rev a). rewrite <- rev_app_distr, <- Ha. by rewrite rev_involutive.
Qed.

Lemma strip_infix (s : text) : ∃ a b, s = a ++ strip s ++ b.
Proof.
  unfold strip. destruct (lstrip_suffix s) as [a Ha].
  destruct (rstrip_prefix (lstrip s)) as [b Hb].
  exists a, b. by rewrite <- Hb.
Qed.

Lemma lstrip_keep (l t : text) (c : N) :
  is_space c = false → lstrip (l ++ c :: t) = lstrip l ++ c :: t.
Proof.
  intros Hc. induction l as [|x l IH]; simpl.
  - by rewrite Hc.
  - by destruct (is_space x).
Qed.

Lemma rstrip_keep (h r : text) (c : N) :
  is_space c = false → rstrip (h ++ c :: r) = h ++ c :: rstrip r.
Proof.
  intros Hc. unfold rstrip.
  rewrite rev_app_distr. simpl. rewrite <- app_assoc. simpl.
  rewrite (lstrip_keep _ _ _ Hc), rev_app_distr. simpl.
  by rewrite rev_involutive, <- app_assoc.
Qed.

(** Stripping keeps whatever lies between two characters that are not
    white space. *)
Lemma strip_keep (l mid r : text) (c1 c2 : N) :
  is_space c1 = false → is_space c2 = false →
  strip (l ++ c1 :: mid ++ c2 :: r) = lstrip l ++ c1 :: mid ++ c2 :: rstrip r.
Proof.
  intros H1 H2. unfold strip. rewrite (lstrip_keep _ _ _ H1).
  replace (lstrip l ++ c1 :: mid ++ c2 :: r)
    with ((lstrip l ++ c1 :: mid) ++ c2 :: r) by (by rewrite <- app_assoc).
  rewrite (rstrip_keep _ _ _ H2). by rewrite <- app_assoc.
Qed.

(** ** The matches of [finditer] *)

Lemma finditer_match (s : text) (m : rmatch) :
  m ∈ finditer s →
  m_end m = S (m_start m) + (span_of m).2 ∧
  pattern_at s (m_start m) (span_of m).2.
Proof.
  intros Hin. apply scan_sound in Hin as [_ Hm].
  pose proof (match_at_bounds _ _ _ Hm) as Hb.
  apply match_at_pattern in Hm as (k & Hk & Hp).
  unfold span_of. simpl. replace (m_end m - S (m_start m)) with k by lia.
  by split.
Qed.

Lemma finditer_complete (s : text) (i k : nat) :
  pattern_at s i k → Match i (S i + k) ∈ finditer s.
Proof.
  intros Hp. apply scan_complete; [lia|lia|].
  apply match_at_pattern. eauto.
Qed.

Lemma group1_sub (s : text) (m : rmatch) :
  m ∈ finditer s → group1 s m = sub s (S (m_start m)) (m_end m).
Proof.
  intros Hin. apply scan_sound in Hin as [_ Hm].
  apply match_at_bounds in Hm. unfold group1. apply py_slice_sub. lia.
Qed.

Lemma group1_upper (s : text) (m : rmatch) :
  m ∈ finditer s →
  length (group1 s m) = (span_of m).2 ∧
  Forall (λ c, is_upper c = true) (group1 s m).
Proof.
  intros Hin. rewrite (group1_sub _ _ Hin).
  pose proof (scan_sound _ _ _ _ Hin) as [_ Hm].
  apply match_at_bounds in Hm.
  destruct (finditer_match _ _ Hin) as (He & _ & _ & Hall & _).
  unfold span_of in *. simpl in *.
  split; [rewrite sub_length; lia|].
  apply Forall_lookup. intros j c Hj.
  assert (j < m_end m - S (m_start m)) as Hlt.
  { apply lookup_lt_Some in Hj. rewrite sub_length in Hj; lia. }
  rewrite sub_lookup in Hj by done.
  destruct (Hall j Hlt) as (c' & Hc' & Hup). simpl in Hc', Hj. congruence.
Qed.

(** The matched text is the dollar followed by group 1. *)
Lemma match_text (s : text) (m : rmatch) :
  m ∈ finditer s → sub s (m_start m) (m_end m) = DOLLAR :: group1 s m.
Proof.
  intros Hin. rewrite (group1_sub _ _ Hin).
  pose proof (scan_sound _ _ _ _ Hin) as [_ Hm].
  apply match_at_bounds in Hm.
  destruct (finditer_match _ _ Hin) as (_ & Hd & _).
  rewrite (sub_app s (m_start m) (S (m_start m)) (m_end m)) by lia.
  unfold sub at 1. rewrite (drop_S _ _ _ Hd).
  replace (S (m_start m) - m_start m) with 1 by lia. reflexivity.
Qed.

Lemma excerpt_window_sub (s : text) (m : rmatch) :
  excerpt_window s m =
    sub s (m_start m - 100) (Nat.min (length s) (m_end m + 100)).
Proof.
  unfold excerpt_window.
  replace (Z.max 0 (Z.of_nat (m_start m) - 100))
    with (Z.of_nat (m_start m - 100)) by lia.
  replace (Z.min (Z.of_nat (length s)) (Z.of_nat (m_end m) + 100))
    with (Z.of_nat (Nat.min (length s) (m_end m + 100))) by lia.
  apply py_slice_sub. lia.
Qed.

(** The window is the text before the match, the match, and the text
    after it. *)
Lemma excerpt_window_split (s : text) (m : rmatch) :
  m ∈ finditer s →
  excerpt_window s m =
    sub s (m_start m - 100) (m_start m) ++ (DOLLAR :: group1 s m) ++
    sub s (m_end m) (Nat.min (length s) (m_end m + 100)).
Proof.
  intros Hin. rewrite excerpt_window_sub, <- (match_text _ _ Hin).
  pose proof (scan_sound _ _ _ _ Hin) as [_ Hm].
  apply match_at_bounds in Hm.
  rewrite (sub_app s _ (m_start m) _) by lia. f_equal.
  apply sub_app; lia.
Qed.

(** ** The Mention Extractor *)

(** C1. Every token returned by [extract_token_mentions] is made of
    capital Latin letters only, is 3 to 10 characters long, stands in
    the text right after a dollar sign and is not followed by a word
    character; and the tokens returned are those of all the places where
    the pattern holds, left to right, none reaching into the next. *)
Theorem extract_token_mentions_pattern (s : text) :
  Forall (λ mt, ∃ i,
            s !! i = Some DOLLAR ∧
            Forall (λ c, is_upper c = true) (token mt) ∧
            3 ≤ length (token mt) ≤ 10 ∧
            sub s (S i) (S i + length (token mt)) = token mt ∧
            (∀ c, s !! (S i + length (token mt)) = Some c → is_word c = false))
         (extract_token_mentions s) ∧
  ∃ spans : list (nat * nat),
    token <$> extract_token_mentions s =
      (λ ik, sub s (S ik.1) (S ik.1 + ik.2)) <$> spans ∧
    (∀ i k, (i, k) ∈ spans ↔ pattern_at s i k) ∧
    left_to_right 0 spans.
Proof.
  unfold extract_token_mentions. split.
  - apply Forall_fmap, Forall_forall. intros m Hin. simpl.
    destruct (group1_upper _ _ Hin) as [Hlen Hup].
    destruct (finditer_match _ _ Hin) as (He & Hd & Hk & _ & Hstop).
    exists (m_start m). rewrite Hlen.
    repeat split; try done; try lia.
    rewrite (group1_sub _ _ Hin). by rewrite He.
  - exists (span_of <$> finditer s). split; [|split].
    + rewrite <- !list_fmap_compose. apply Forall_fmap_ext_1, Forall_forall.
      intros m Hin. simpl.
      destruct (finditer_match _ _ Hin) as (He & _).
      rewrite (group1_sub _ _ Hin). unfold span_of in *. simpl in *.
      f_equal. lia.
    + intros i k. split.
      * intros (m & Heq & Hin)%list_elem_of_fmap.
        destruct (finditer_match _ _ Hin) as (_ & Hp).
        destruct m as [a b]. unfold span_of in *. simpl in *.
        by injection Heq as -> ->.
      * intros Hp. apply list_elem_of_fmap.
        exists (Match i (S i + k)). split; [|by apply finditer_complete].
        unfold span_of. simpl. f_equal. lia.
    + apply scan_left_to_right.
Qed.

(** C2, as the code has it. For the [n]-th mention returned, with [m]
    the [n]-th match: the excerpt is the stripped window; the window is
    the slice of the text from 100 characters before the start of the
    match (not before the beginning) to 100 characters after its end
    (not past the end), so it holds at most 200 characters more than
    the match, at most 211; the excerpt is a contiguous part of the
    text and contains the dollar and the token. *)
Theorem extract_token_mentions_excerpt (s : text) (n : nat) (mt : mention) :
  extract_token_mentions s !! n = Some mt →
  ∃ m, finditer s !! n = Some m ∧
    token mt = group1 s m ∧
    context mt = strip (excerpt_window s m) ∧
    excerpt_window s m =
      sub s (m_start m - 100) (Nat.min (length s) (m_end m + 100)) ∧
    length (excerpt_window s m) ≤ 201 + length (token mt) ∧
    length (excerpt_window s m) ≤ 211 ∧
    (∃ pre post, s = pre ++ context mt ++ post) ∧
    (∃ l r, context mt = l ++ DOLLAR :: token mt ++ r).
Proof.
  unfold extract_token_mentions. rewrite list_lookup_fmap.
  destruct (finditer s !! n) as [m|] eqn:Hn; [|done].
  intros [= <-]. exists m. simpl.
  assert (m ∈ finditer s) as Hin by (by eapply list_elem_of_lookup_2).
  pose proof (scan_sound _ _ _ _ Hin) as [_ Hm].
  apply match_at_bounds in Hm.
  destruct (group1_upper _ _ Hin) as [Hlen Hup].
  destruct (finditer_match _ _ Hin) as (He & _ & Hk & _).
  assert (length (excerpt_window s m) ≤ 201 + length (group1 s m)) as Hw.
  { rewrite excerpt_window_sub, sub_length by lia. lia. }
  repeat split; try done.
  - apply excerpt_window_sub.
  - lia.
  - assert (∃ a b, s = a ++ excerpt_window s m ++ b) as (a & b & Hs).
    { rewrite excerpt_window_sub.
      exists (sub s 0 (m_start m - 100)),
        (sub s (Nat.min (length s) (m_end m + 100)) (length s)).
      rewrite <- !sub_app by lia. by rewrite sub_whole. }
    destruct (strip_infix (excerpt_window s m)) as (a' & b' & Hx).
    exists (a ++ a'), (b' ++ b).
    rewrite Hs at 1. rewrite Hx at 1. by rewrite <- !app_assoc.
  - rewrite (excerpt_window_split _ _ Hin).
    destruct (group1 s m) as [|c tok _] using rev_ind; [simpl in *; lia|].
    pose proof (proj1 (Forall_app _ _ _) Hup) as [_ Hc].
    apply Forall_cons_1 in Hc as [Hc _].
    rewrite <- app_comm_cons, <- app_assoc. simpl.
    rewrite (strip_keep _ _ _ _ _ dollar_not_space (is_upper_not_space _ Hc)).
    exists (lstrip (sub s (m_start m - 100) (m_start m))),
      (rstrip (sub s (m_end m) (Nat.min (length s) (m_end m + 100)))).
    by rewrite <- app_assoc.
Qed.

(** C7. The two tokens of the sample sentence, each with the whole
    sentence as its excerpt. *)
Theorem extract_token_mentions_sample :
  extract_token_mentions (lit "Check out $BTC and $ETH today") =
    [ {| token := lit "BTC"; context := lit "Check out $BTC and $ETH today" |};
      {| token := lit "ETH"; context := lit "Check out $BTC and $ETH today" |} ].
Proof. vm_compute. reflexivity. Qed.

(** C8. A text with no dollar sign followed by 3 to 10 capitals has no
    mentions. *)
Theorem extract_token_mentions_none (s : text) :
  (∀ i k, 3 ≤ k ≤ 10 → ¬ dollar_run s i k) →
  extract_token_mentions s = [].
Proof.
  intros Hno. unfold extract_token_mentions.
  destruct (finditer s) as [|m ms] eqn:Hf; [done|].
  assert (m ∈ finditer s) as Hin by (rewrite Hf; apply elem_of_cons; by left).
  destruct (finditer_match _ _ Hin) as (_ & Hd & Hk & Hall & _).
  destruct (Hno (m_start m) (span_of m).2 Hk). by split.
Qed.

(** ** The methods and their results *)

Lemma text_eqb_eq (a b : text) : text_eqb a b = true ↔ a = b.
Proof.
  revert b. induction a as [|x a IH]; intros [|y b]; simpl; try done.
  rewrite andb_true_iff, N.eqb_eq, IH. split.
  - by intros [-> ->].
  - by intros [= -> ->].
Qed.

Lemma text_eqb_refl (a : text) : text_eqb a a = true.
Proof. by apply text_eqb_eq. Qed.

Ltac run :=
  unfold mbind, M_bind, mret, M_ret, bind, ret, raise, lift, try_except,
    requests_get, raise_for_status, response_json, utcnow, sleep, logger;
  cbn [fst snd].

Lemma tweet_records_pure (self : scraper) (user_id tweet : pyval) (w : world) :
  tweet_records self user_id tweet w = (tweet_result user_id tweet, w).
Proof.
  unfold tweet_records, tweet_result, extract_token_mentions_of. run.
  destruct (py_getitem tweet (lit "text")) as [v|e]; [|done]. simpl.
  destruct v; try done.
  by destruct (extract_token_mentions s).
Qed.

Lemma for_tweets_pure (self : scraper) (user_id : pyval) (tweets : list pyval)
    (acc : list pydict) (w : world) :
  for_tweets self user_id tweets acc w = (tweets_result user_id tweets acc, w).
Proof.
  revert acc. induction tweets as [|t ts IH]; intros acc; [done|].
  cbn [for_tweets tweets_result]. run.
  rewrite tweet_records_pure.
  destruct (tweet_result user_id t) as [recs|e]; [|done]. apply IH.
Qed.

Lemma get_list_members_eq (self : scraper) (w : world) :
  get_list_members self w =
    let r := members_result (net w (calls w)) in
    (recovered r,
     after_request (members_request self)
       (ErrorFetchingListMembers <$> caught r) w).
Proof.
  unfold get_list_members, members_result, recovered, caught, fetched, data_of.
  run.
  destruct (net w (calls w)) as [cause|status body]; [done|]. cbn.
  destruct ((400 <=? status)%Z && (status <? 600)%Z); [done|].
  destruct body as [v|]; cbn; [|by destruct json_error_is_request_exception].
  destruct (py_get v (lit "data") (PList [])) as [d|e]; cbn;
    [|by destruct (is_request_exception e)].
  destruct (py_iter d) as [ms|e]; cbn;
    [|by destruct (is_request_exception e)].
  destruct (result_map _ ms) as [ids|e]; cbn; [done|].
  by destruct (is_request_exception e).
Qed.

Lemma get_user_tweets_start (self : scraper) (user_id : pyval) (days : Z)
    (w : world) :
  get_user_tweets self user_id days w =
    match start_of (clock w (reads w)) days with
    | Ok start_time =>
        let r := user_tweets_result user_id (net w (calls w)) in
        (recovered r,
         after_request (tweets_request self user_id start_time)
           (ErrorFetchingTweets user_id <$> caught r) (read_clock w))
    | Raise e => (Raise e, read_clock w)
    end.
Proof.
  unfold get_user_tweets, start_of. run.
  destruct (timedelta days) as [delta|e]; [|done]. cbn [result_bind].
  destruct (datetime_sub (clock w (reads w)) delta) as [start|e]; [|done].
  unfold user_tweets_result, recovered, caught, fetched, data_of. cbn.
  destruct (net w (calls w)) as [cause|status body]; [done|]. cbn.
  destruct ((400 <=? status)%Z && (status <? 600)%Z); [done|].
  destruct body as [v|]; cbn; [|by destruct json_error_is_request_exception].
  destruct (py_get v (lit "data") (PList [])) as [d|e]; cbn;
    [|by destruct (is_request_exception e)].
  destruct (py_iter d) as [ts|e]; cbn;
    [|by destruct (is_request_exception e)].
  rewrite for_tweets_pure.
  destruct (tweets_result user_id ts []) as [recs|e]; cbn; [done|].
  by destruct (is_request_exception e).
Qed.

(** When the start time can be computed. *)
Lemma get_user_tweets_eq (self : scraper) (user_id : pyval) (days : Z)
    (w : world) :
  window_fits (clock w (reads w)) days →
  get_user_tweets self user_id days w =
    let r := user_tweets_result user_id (net w (calls w)) in
    let start_time := (clock w (reads w) - days * MICROSECONDS_PER_DAY)%Z in
    (recovered r,
     after_request (tweets_request self user_id start_time)
       (ErrorFetchingTweets user_id <$> caught r) (read_clock w)).
Proof. intros Hfit. by rewrite get_user_tweets_start, Hfit. Qed.

(** Seven days back from any reading of the clock is a date. *)
Lemma window_fits_week (now : Z) : window_fits now 7.
Proof.
  unfold window_fits, start_of, timedelta, datetime_sub. cbn [result_bind].
  change ((-999999999 <=? 7)%Z && (7 <=? 999999999)%Z) with true.
  cbv iota zeta beta. cbn [result_bind].
  unfold DATETIME_MIN, DATETIME_MAX, MICROSECONDS_PER_DAY.
  repeat match goal with
         | |- context [(?a <=? ?b)%Z] => destruct (Z.leb_spec a b)
         end; cbn [andb]; try done; lia.
Qed.

Lemma get_user_tweets_week (self : scraper) (user_id : pyval) (w : world) :
  get_user_tweets self user_id 7 w =
    let r := user_tweets_result user_id (net w (calls w)) in
    let start_time := (clock w (reads w) - 7 * MICROSECONDS_PER_DAY)%Z in
    (recovered r,
     after_request (tweets_request self user_id start_time)
       (ErrorFetchingTweets user_id <$> caught r) (read_clock w)).
Proof. apply get_user_tweets_eq, window_fits_week. Qed.

(** *** Files left as they were *)

Lemma unchanged_but_refl (paths : list text) (f : gmap text text) :
  unchanged_but paths f f.
Proof. by intros p Hp. Qed.

Lemma unchanged_but_trans (paths : list text) (f1 f2 f3 : gmap text text) :
  unchanged_but paths f1 f2 → unchanged_but paths f2 f3 →
  unchanged_but paths f1 f3.
Proof. intros H1 H2 p Hp. by rewrite (H2 p Hp), (H1 p Hp). Qed.

Lemma unchanged_but_more (paths paths' : list text) (f f' : gmap text text) :
  paths ⊆ paths' → unchanged_but paths f f' → unchanged_but paths' f f'.
Proof. intros Hs H p Hp. apply H. intros Hin. apply Hp, Hs, Hin. Qed.

Lemma unchanged_but_insert (paths : list text) (f : gmap text text)
    (path data : text) :
  path ∈ paths → unchanged_but paths f (<[path := data]> f).
Proof.
  intros Hin p Hp. apply lookup_insert_ne. intros ->. by apply Hp.
Qed.

Lemma logged_files (l : level) (msg : message) (w : world) :
  unchanged_but [LOG_FILE] (fs w) (fs (logged l msg w)).
Proof. apply unchanged_but_insert, elem_of_cons. by left. Qed.

Lemma after_request_frame (r : request) (err : option message) (w : world) :
  net (after_request r err w) = net w ∧
  calls (after_request r err w) = S (calls w) ∧
  writable (after_request r err w) = writable w ∧
  unchanged_but [LOG_FILE] (fs w) (fs (after_request r err w)).
Proof.
  destruct err as [m|]; repeat split; try done.
  apply (logged_files ERROR m (sent_request r w)).
Qed.
Lemma failure_of_fetched (o : http_outcome) (e : exn) :
  failure_of o = Some e → fetched o = Raise e ∧ is_request_exception e = true.
Proof.
  destruct o as [cause|status body]; simpl.
  - by intros [= <-].
  - destruct ((400 <=? status)%Z && (status <? 600)%Z); [|done].
    by intros [= <-].
Qed.

Lemma answers_fetched (o : http_outcome) (body : pydict) :
  answers o body → fetched o = Ok (PDict body).
Proof.
  intros (status & -> & Hst). simpl.
  destruct (Z.leb_spec 400 status); [|done].
  by destruct (Z.ltb_spec status 600); [lia|].
Qed.

Lemma serves_data (o : http_outcome) (items : list pyval) :
  serves o items →
  ∃ body, fetched o = Ok body ∧ data_of body = Ok items.
Proof.
  intros (body & Ha & Hd). exists (PDict body).
  split; [by apply answers_fetched|].
  unfold data_of. simpl. by rewrite Hd.
Qed.

(** *** The records of well-formed posts *)

Lemma result_map_token_tweet (user_id : pyval) (d : pydict) (p : post)
    (ms : list mention) :
  is_post (PDict d) p →
  result_map (token_tweet user_id (PDict d)) ms =
    Ok (mention_record user_id p <$> ms).
Proof.
  intros (d' & [= <-] & _ & Hid & Hcr).
  induction ms as [|mt ms IH]; [done|]. simpl.
  unfold token_tweet at 1. simpl. rewrite Hid, Hcr. simpl.
  by rewrite IH.
Qed.

Lemma tweet_result_post (user_id tweet : pyval) (p : post) :
  is_post tweet p → tweet_result user_id tweet = Ok (post_records user_id p).
Proof.
  intros Hp. pose proof Hp as (d & -> & Htx & _).
  unfold tweet_result, post_records. simpl. rewrite Htx. simpl.
  destruct (extract_token_mentions (post_text p)) as [|mt ms] eqn:Hms; [done|].
  exact (result_map_token_tweet user_id d p (mt :: ms) Hp).
Qed.

Lemma tweet_result_outcome (user_id tweet : pyval) (r : result (list pydict)) :
  post_outcome user_id tweet r → tweet_result user_id tweet = r.
Proof.
  intros [d Htx|d s Htx Hms|d s Htx Hms Hid|d s tid Htx Hms Hid Hcr|d p Hp].
  - unfold tweet_result. simpl. by rewrite Htx.
  - unfold tweet_result. simpl. rewrite Htx. simpl. by rewrite Hms.
  - unfold tweet_result. simpl. rewrite Htx. simpl.
    destruct (extract_token_mentions s) as [|mt ms]; [done|].
    simpl. unfold token_tweet at 1. simpl. by rewrite Hid.
  - unfold tweet_result. simpl. rewrite Htx. simpl.
    destruct (extract_token_mentions s) as [|mt ms]; [done|].
    simpl. unfold token_tweet at 1. simpl. by rewrite Hid, Hcr.
  - by apply tweet_result_post.
Qed.

Lemma tweets_result_ok (user_id : pyval) (tweets : list pyval)
    (recs : list (list pydict)) (acc : list pydict) :
  Forall2 (λ x r, post_outcome user_id x (Ok r)) tweets recs →
  tweets_result user_id tweets acc = Ok (acc ++ concat recs).
Proof.
  intros H. revert acc. induction H as [|x r xs rs Hx _ IH]; intros acc; simpl.
  - by rewrite app_nil_r.
  - rewrite (tweet_result_outcome _ _ _ Hx). simpl.
    by rewrite IH, <- app_assoc.
Qed.

Lemma tweets_result_raise (user_id : pyval) (pre rest : list pyval)
    (t : pyval) (recs : list (list pydict)) (acc : list pydict) (e : exn) :
  Forall2 (λ x r, post_outcome user_id x (Ok r)) pre recs →
  post_outcome user_id t (Raise e) →
  tweets_result user_id (pre ++ t :: rest) acc = Raise e.
Proof.
  intros H Ht. revert acc. induction H as [|x r xs rs Hx _ IH]; intros acc; simpl.
  - by rewrite (tweet_result_outcome _ _ _ Ht).
  - rewrite (tweet_result_outcome _ _ _ Hx). simpl. apply IH.
Qed.

Lemma post_outcome_key_error (user_id t : pyval) (e : exn) :
  post_outcome user_id t (Raise e) →
  ∃ key, e = KeyError key ∧ key ∈ [lit "text"; lit "id"; lit "created_at"].
Proof.
  inversion 1; subst; eexists; (split; [reflexivity|]);
    rewrite !elem_of_cons; auto.
Qed.

Lemma tweets_result_posts (user_id : pyval) (tweets : list pyval)
    (posts : list post) (acc : list pydict) :
  Forall2 is_post tweets posts →
  tweets_result user_id tweets acc = Ok (acc ++ account_records user_id posts).
Proof.
  intros H. unfold account_records.
  apply tweets_result_ok.
  induction H as [|x p xs ps Hx _ IH]; simpl; constructor; [|done].
  pose proof Hx as (d & -> & _). by apply po_records.
Qed.

Lemma user_tweets_result_posts (user_id : pyval) (o : http_outcome)
    (tweets : list pyval) (posts : list post) :
  serves o tweets → Forall2 is_post tweets posts →
  user_tweets_result user_id o = Ok (account_records user_id posts).
Proof.
  intros (body & Hf & Hd)%serves_data Hp. unfold user_tweets_result.
  rewrite Hf. simpl. rewrite Hd. simpl.
  by rewrite (tweets_result_posts _ _ posts).
Qed.

(** *** The member identifiers *)

Lemma result_map_ids (members ids : list pyval) :
  Forall2 has_id members ids →
  result_map (λ member, py_getitem member (lit "id")) members = Ok ids.
Proof.
  induction 1 as [|x i xs is_ (d & -> & Hd) _ IH]; [done|].
  simpl. rewrite Hd. simpl. by rewrite IH.
Qed.

Lemma result_map_no_id (pre rest ids : list pyval) (m : pydict) :
  Forall2 has_id pre ids → dict_get m (lit "id") = None →
  result_map (λ member, py_getitem member (lit "id")) (pre ++ PDict m :: rest)
    = Raise (KeyError (lit "id")).
Proof.
  intros H Hm. induction H as [|x i xs is_ (d & -> & Hd) _ IH]; simpl.
  - by rewrite Hm.
  - rewrite Hd. simpl. by rewrite IH.
Qed.

(** ** Failures of the requests *)

Lemma for_members_step (self : scraper) (user_id : pyval) (rest : list pyval)
    (acc : list pydict) (w : world) :
  for_members self (user_id :: rest) acc w =
    match get_user_tweets self user_id 7
            (slept_for 1 (logged INFO (ScrapingTweets user_id) w)) with
    | (Ok user_tweets, w') => for_members self rest (acc ++ user_tweets) w'
    | (Raise e, w') => (Raise e, w')
    end.
Proof. reflexivity. Qed.

(** C4. When the request meets a transport fault or a client or server
    error status, [get_list_members] and [get_user_tweets] (for a
    look-back whose start time can be computed, so that the request is
    made) log one error and return the empty list; a run whose member
    request fails issues no other request, logs the warning, writes
    nothing but the two lines of the log and ends normally; and the
    loop over the members goes on with the next member after a failed
    posts request. *)
Theorem request_failures_caught (self : scraper) (user_id : pyval) (days : Z)
    (output_file : text) (rest : list pyval) (acc : list pydict) (w : world)
    (e : exn) :
  failure_of (net w (calls w)) = Some e →
  window_fits (clock w (reads w)) days →
  get_list_members self w =
    (Ok [], logged ERROR (ErrorFetchingListMembers e)
              (sent_request (members_request self) w)) ∧
  get_user_tweets self user_id days w =
    (Ok [], logged ERROR (ErrorFetchingTweets user_id e)
              (sent_request
                 (tweets_request self user_id
                    (clock w (reads w) - days * MICROSECONDS_PER_DAY))
                 (read_clock w))) ∧
  scrape_list_tokens self output_file w =
    (Ok tt, logged WARNING NoMentionsFound
              (logged ERROR (ErrorFetchingListMembers e)
                 (sent_request (members_request self) w))) ∧
  for_members self (user_id :: rest) acc w =
    for_members self rest acc
      (logged ERROR (ErrorFetchingTweets user_id e)
         (sent_request
            (tweets_request self user_id
               (clock w (reads w) - 7 * MICROSECONDS_PER_DAY))
            (read_clock
               (slept_for 1 (logged INFO (ScrapingTweets user_id) w))))).
Proof.
  intros Hf Hfit. destruct (failure_of_fetched _ _ Hf) as [Hfe Hre].
  assert (get_list_members self w =
    (Ok [], logged ERROR (ErrorFetchingListMembers e)
              (sent_request (members_request self) w))) as Hm.
  { rewrite get_list_members_eq. unfold members_result, recovered, caught.
    simpl. rewrite Hfe. simpl. by rewrite Hre. }
  assert (∀ d w', net w' = net w → calls w' = calls w →
    window_fits (clock w' (reads w')) d →
    get_user_tweets self user_id d w' =
    (Ok [], logged ERROR (ErrorFetchingTweets user_id e)
              (sent_request
                 (tweets_request self user_id
                    (clock w' (reads w') - d * MICROSECONDS_PER_DAY))
                 (read_clock w')))) as Hu.
  { intros d w' Hn Hc Hd. rewrite (get_user_tweets_eq _ _ _ _ Hd).
    unfold user_tweets_result, recovered, caught.
    simpl. rewrite Hn, Hc, Hfe. simpl. by rewrite Hre. }
  split; [done|]. split; [by apply Hu|]. split.
  - unfold scrape_list_tokens. unfold mbind, M_bind, bind. by rewrite Hm.
  - rewrite for_members_step, Hu by (done || apply window_fits_week).
    by rewrite app_nil_r.
Qed.

(** C9, as the code has it. A response whose body is a JSON object
    with no field [data] gives the empty list from both methods, and no
    exception ([get_user_tweets] being called for a look-back whose
    start time can be computed): with an error status by the handler,
    which logs it, and otherwise by the default of [get], with nothing
    logged. *)
Theorem missing_data_gives_nothing (self : scraper) (user_id : pyval)
    (days : Z) (w : world) (status : Z) (body : pydict) :
  net w (calls w) = Response status (Some (PDict body)) →
  dict_get body (lit "data") = None →
  window_fits (clock w (reads w)) days →
  get_list_members self w =
    (Ok [],
     after_request (members_request self)
       (ErrorFetchingListMembers <$> failure_of (net w (calls w))) w) ∧
  get_user_tweets self user_id days w =
    (Ok [],
     after_request
       (tweets_request self user_id
          (clock w (reads w) - days * MICROSECONDS_PER_DAY))
       (ErrorFetchingTweets user_id <$> failure_of (net w (calls w)))
       (read_clock w)).
Proof.
  intros Hn Hd Hfit.
  rewrite get_list_members_eq, (get_user_tweets_eq _ _ _ _ Hfit). cbv zeta.
  unfold members_result, user_tweets_result, data_of, recovered, caught.
  rewrite Hn. simpl.
  destruct ((400 <=? status)%Z && (status <? 600)%Z); simpl; [done|].
  by rewrite Hd.
Qed.

(** ** The records of a run *)

(** The records of the accounts of a timeline, account after account. *)
Lemma for_members_timeline (self : scraper)
    (timeline : list (pyval * list post)) (acc : list pydict) (w : world) :
  (∀ i up, timeline !! i = Some up → feeds (net w (calls w + i)) up.2) →
  ∃ w', for_members self (fst <$> timeline) acc w =
          (Ok (acc ++ concat ((λ up, account_records up.1 up.2) <$> timeline)),
           w').
Proof.
  revert acc w. induction timeline as [|[u ps] tl IH]; intros acc w H.
  - exists w. simpl. by rewrite app_nil_r.
  - assert (recovered (user_tweets_result u (net w (calls w))) =
              Ok (account_records u ps)) as Hr.
    { pose proof (H 0 (u, ps) eq_refl) as Hf. rewrite Nat.add_0_r in Hf.
      destruct Hf as [(tweets & Hs & Hp)|[Hf Hps]]; simpl in *.
      - by rewrite (user_tweets_result_posts u _ _ _ Hs Hp).
      - destruct (failure_of (net w (calls w))) as [e|] eqn:He; [|done].
        destruct (failure_of_fetched _ _ He) as [Hfe Hre].
        unfold user_tweets_result, recovered, caught. rewrite Hfe. simpl.
        by rewrite Hre, Hps. }
    cbn [fmap list_fmap fst]. rewrite for_members_step, get_user_tweets_week.
    cbn [net calls slept_for logged]. cbv zeta. rewrite Hr.
    match goal with |- ∃ _, for_members _ _ ?a ?w1 = _ =>
      destruct (IH a w1) as [w' Hw'] end.
    { intros i up Hi. specialize (H (S i) up Hi).
      match goal with |- feeds (net (after_request ?r ?e ?v) _) _ =>
        destruct (after_request_frame r e v) as (-> & -> & _) end.
      cbn. by replace (calls w + S i) with (S (calls w + i)) in H by lia. }
    exists w'. rewrite Hw'. cbn. by rewrite <- app_assoc.
Qed.

(** C3. For a posts response that lists well-formed posts,
    [get_user_tweets] returns one record per mention of each post, with
    the account, the post identifier, its creation time, the token and
    the excerpt, post after post and mention after mention; a post
    without mention gives none. For a run whose members response lists
    the accounts of a timeline and whose [i]-th posts request meets the
    posts of the [i]-th account (or fails, the account then having no
    posts), the records gathered are those of the accounts in the order
    of the member list. [get_user_tweets] is called for a look-back
    whose start time can be computed, as the run does with its seven
    days. *)
Theorem records_in_order (self : scraper) (user_id : pyval) (days : Z)
    (wu : world) (tweets : list pyval) (posts : list post)
    (w : world) (members : list pyval) (timeline : list (pyval * list post)) :
  window_fits (clock wu (reads wu)) days →
  serves (net wu (calls wu)) tweets →
  Forall2 is_post tweets posts →
  serves (net w (calls w)) members →
  Forall2 has_id members (fst <$> timeline) →
  (∀ i up, timeline !! i = Some up → feeds (net w (S (calls w) + i)) up.2) →
  get_user_tweets self user_id days wu =
    (Ok (concat ((λ p, mention_record user_id p <$>
                         extract_token_mentions (post_text p)) <$> posts)),
     sent_request
       (tweets_request self user_id
          (clock wu (reads wu) - days * MICROSECONDS_PER_DAY))
       (read_clock wu)) ∧
  ∃ w', gather self w =
          (Ok (concat ((λ up, account_records up.1 up.2) <$> timeline)), w').
Proof.
  intros Hfit Hs Hp Hms Hids Htl. split.
  - rewrite (get_user_tweets_eq _ _ _ _ Hfit). simpl.
    by rewrite (user_tweets_result_posts _ _ _ _ Hs Hp).
  - unfold gather, mbind, M_bind, bind. rewrite get_list_members_eq.
    destruct (serves_data _ _ Hms) as (body & Hf & Hd).
    unfold members_result. rewrite Hf. simpl. rewrite Hd. simpl.
    rewrite (result_map_ids _ _ Hids). simpl.
    destruct (for_members_timeline self timeline []
                (sent_request (members_request self) w)) as [w' Hw']; [done|].
    exists w'. by rewrite Hw'.
Qed.

(** C10, as the code has it. A member object without [id], after
    members that have one, makes [get_list_members] raise
    [KeyError('id')]. A post object makes [get_user_tweets] raise a
    [KeyError] when it has no [text], or when its text holds a mention
    and it has no [id] or no [created_at]; the posts before it may be
    well-formed or without mention, whatever their other fields. In both
    cases the handler does not take the exception: nothing is logged
    and nothing is returned. [get_user_tweets] is called for a look-back
    whose start time can be computed. *)
Theorem missing_keys_raise (self : scraper) (user_id : pyval) (days : Z)
    (wm : world) (members_pre members_rest ids : list pyval) (m : pydict)
    (wp : world) (pre rest : list pyval) (recs : list (list pydict))
    (t : pyval) (e : exn) :
  serves (net wm (calls wm)) (members_pre ++ PDict m :: members_rest) →
  Forall2 has_id members_pre ids →
  dict_get m (lit "id") = None →
  window_fits (clock wp (reads wp)) days →
  serves (net wp (calls wp)) (pre ++ t :: rest) →
  Forall2 (λ x r, post_outcome user_id x (Ok r)) pre recs →
  post_outcome user_id t (Raise e) →
  get_list_members self wm =
    (Raise (KeyError (lit "id")), sent_request (members_request self) wm) ∧
  (∃ key, e = KeyError key ∧ key ∈ [lit "text"; lit "id"; lit "created_at"]) ∧
  get_user_tweets self user_id days wp =
    (Raise e, sent_request
                (tweets_request self user_id
                   (clock wp (reads wp) - days * MICROSECONDS_PER_DAY))
                (read_clock wp)).
Proof.
  intros Hms Hids Hm Hfit Hts Hpre Ht.
  destruct (post_outcome_key_error _ _ _ Ht) as (key & -> & Hkey).
  split; [|split; [by exists key|]].
  - rewrite get_list_members_eq.
    destruct (serves_data _ _ Hms) as (body & Hf & Hd).
    unfold members_result. rewrite Hf. simpl. rewrite Hd. simpl.
    by rewrite (result_map_no_id _ _ _ _ Hids Hm).
  - rewrite (get_user_tweets_eq _ _ _ _ Hfit).
    destruct (serves_data _ _ Hts) as (body & Hf & Hd).
    unfold user_tweets_result. rewrite Hf. simpl. rewrite Hd. simpl.
    by rewrite (tweets_result_raise _ _ _ _ _ _ _ Hpre Ht).
Qed.

(** ** The keys of the records *)

Lemma token_tweet_keyed (user_id tweet : pyval) (mt : mention) (r : pydict) :
  token_tweet user_id tweet mt = Ok r → keyed r.
Proof.
  unfold token_tweet.
  destruct (py_getitem tweet (lit "id")) as [i|]; [|done]. simpl.
  destruct (py_getitem tweet (lit "created_at")) as [c|]; [|done]. simpl.
  by intros [= <-].
Qed.

Lemma result_map_keyed (user_id tweet : pyval) (ms : list mention)
    (rs : list pydict) :
  result_map (token_tweet user_id tweet) ms = Ok rs → Forall keyed rs.
Proof.
  revert rs. induction ms as [|mt ms IH]; intros rs; simpl.
  - by intros [= <-].
  - destruct (token_tweet user_id tweet mt) as [r|] eqn:Hr; [|done]. simpl.
    destruct (result_map _ ms) as [rs'|]; [|done]. simpl.
    intros [= <-]. constructor; [by eapply token_tweet_keyed|by apply IH].
Qed.

Lemma tweet_result_keyed (user_id tweet : pyval) (rs : list pydict) :
  tweet_result user_id tweet = Ok rs → Forall keyed rs.
Proof.
  unfold tweet_result.
  destruct (py_getitem tweet (lit "text")) as [v|]; [|done]. simpl.
  destruct v; try done.
  destruct (extract_token_mentions s) as [|mt ms].
  - by intros [= <-].
  - exact (result_map_keyed user_id tweet (mt :: ms) rs).
Qed.

Lemma tweets_result_keyed (user_id : pyval) (tweets : list pyval)
    (acc rs : list pydict) :
  Forall keyed acc → tweets_result user_id tweets acc = Ok rs → Forall keyed rs.
Proof.
  revert acc. induction tweets as [|t ts IH]; intros acc Hacc; simpl.
  - by intros [= <-].
  - destruct (tweet_result user_id t) as [recs|] eqn:Ht; [|done]. simpl.
    apply IH. apply Forall_app. split; [done|by eapply tweet_result_keyed].
Qed.

Lemma user_tweets_keyed (user_id : pyval) (o : http_outcome) (rs : list pydict) :
  recovered (user_tweets_result user_id o) = Ok rs → Forall keyed rs.
Proof.
  unfold recovered. destruct (caught _).
  { by intros [= <-]. }
  unfold user_tweets_result.
  destruct (fetched o) as [body|]; [|done]. simpl.
  destruct (data_of body) as [ts|]; [|done]. simpl.
  by apply tweets_result_keyed.
Qed.

(** ** What a run leaves alone, and what it depends on *)

Lemma member_step_files (u : pyval) (r : request) (err : option message)
    (w : world) :
  writable (after_request r err
              (read_clock (slept_for 1 (logged INFO (ScrapingTweets u) w)))) =
    writable w ∧
  unchanged_but [LOG_FILE] (fs w)
    (fs (after_request r err
           (read_clock (slept_for 1 (logged INFO (ScrapingTweets u) w))))).
Proof.
  destruct (after_request_frame r err
              (read_clock (slept_for 1 (logged INFO (ScrapingTweets u) w))))
    as (_ & _ & Hw & Hf).
  split; [by rewrite Hw|].
  eapply unchanged_but_trans; [|exact Hf].
  apply (logged_files INFO (ScrapingTweets u) w).
Qed.

Lemma for_members_keyed (self : scraper) (members : list pyval)
    (acc rs : list pydict) (w w' : world) :
  Forall keyed acc →
  for_members self members acc w = (Ok rs, w') →
  Forall keyed rs ∧ writable w' = writable w ∧
  unchanged_but [LOG_FILE] (fs w) (fs w').
Proof.
  revert acc w. induction members as [|u ms IH]; intros acc w Hacc.
  - intros [= <- <-]. split; [done|]. split; [done|apply unchanged_but_refl].
  - rewrite for_members_step, get_user_tweets_week. cbv zeta.
    destruct (recovered _) as [recs|] eqn:Hr; [|done].
    intros H. apply IH in H as (Hrs & Hw & Hfs).
    + split; [done|].
      match type of Hw with _ = writable (after_request ?r ?err _) =>
        destruct (member_step_files u r err w) as [Hw0 Hf0] end.
      split; [by rewrite Hw|].
      eapply unchanged_but_trans; [exact Hf0|exact Hfs].
    + apply Forall_app. split; [done|by eapply user_tweets_keyed].
Qed.

Lemma gather_keyed (self : scraper) (acc : list pydict) (w w' : world) :
  gather self w = (Ok acc, w') →
  Forall keyed acc ∧ writable w' = writable w ∧
  unchanged_but [LOG_FILE] (fs w) (fs w').
Proof.
  unfold gather, mbind, M_bind, bind. rewrite get_list_members_eq. cbv zeta.
  destruct (recovered _) as [ms|]; [|done].
  intros H. apply for_members_keyed in H as (Hrs & Hw & Hfs); [|done].
  split; [done|].
  match type of Hw with _ = writable (after_request ?r ?err _) =>
    destruct (after_request_frame r err w) as (_ & _ & Hw0 & Hf0) end.
  split; [by rewrite Hw|].
  eapply unchanged_but_trans; [exact Hf0|exact Hfs].
Qed.

Lemma for_members_raise_frame (self : scraper) (members : list pyval)
    (acc : list pydict) (e : exn) (w w' : world) :
  for_members self members acc w = (Raise e, w') →
  unchanged_but [LOG_FILE] (fs w) (fs w').
Proof.
  revert acc w. induction members as [|u ms IH]; intros acc w; [done|].
  rewrite for_members_step, get_user_tweets_week. cbv zeta.
  match goal with |- context [after_request ?r ?err _] =>
    destruct (member_step_files u r err w) as [_ Hf0] end.
  destruct (recovered _) as [recs|].
  - intros H. apply IH in H.
    eapply unchanged_but_trans; [exact Hf0|exact H].
  - by intros [= _ <-].
Qed.

Lemma gather_raise_frame (self : scraper) (e : exn) (w w' : world) :
  gather self w = (Raise e, w') → unchanged_but [LOG_FILE] (fs w) (fs w').
Proof.
  unfold gather, mbind, M_bind, bind. rewrite get_list_members_eq. cbv zeta.
  match goal with |- context [after_request ?r ?err _] =>
    destruct (after_request_frame r err w) as (_ & _ & _ & Hf0) end.
  destruct (recovered _) as [ms|].
  - intros H. apply for_members_raise_frame in H.
    eapply unchanged_but_trans; [exact Hf0|exact H].
  - by intros [= _ <-].
Qed.

Lemma for_members_same (self : scraper) (members : list pyval)
    (acc : list pydict) (w1 w2 : world) :
  same_responses w1 w2 →
  (for_members self members acc w1).1 = (for_members self members acc w2).1.
Proof.
  revert acc w1 w2. induction members as [|u ms IH]; intros acc w1 w2 H; [done|].
  rewrite !for_members_step, !get_user_tweets_week. cbv zeta.
  cbn [net calls slept_for logged].
  pose proof (H 0) as H0. rewrite !Nat.add_0_r in H0. rewrite H0.
  destruct (recovered _) as [recs|]; [|done].
  apply IH. intros n.
  match goal with |- net (after_request ?r1 ?e1 ?v1) _ =
                     net (after_request ?r2 ?e2 ?v2) _ =>
    destruct (after_request_frame r1 e1 v1) as (-> & -> & _);
    destruct (after_request_frame r2 e2 v2) as (-> & -> & _) end.
  cbn. specialize (H (S n)).
  by rewrite <- !Nat.add_succ_r.
Qed.

Lemma gather_same (self : scraper) (w1 w2 : world) :
  same_responses w1 w2 → (gather self w1).1 = (gather self w2).1.
Proof.
  intros H. unfold gather, mbind, M_bind, bind.
  rewrite !get_list_members_eq. cbv zeta.
  pose proof (H 0) as H0. rewrite !Nat.add_0_r in H0. rewrite H0.
  destruct (recovered _) as [ms|]; [|done].
  apply for_members_same. intros n.
  match goal with |- net (after_request ?r1 ?e1 ?v1) _ =
                     net (after_request ?r2 ?e2 ?v2) _ =>
    destruct (after_request_frame r1 e1 v1) as (-> & -> & _);
    destruct (after_request_frame r2 e2 v2) as (-> & -> & _) end.
  cbn. specialize (H (S n)). by rewrite <- !Nat.add_succ_r.
Qed.

(** ** Writing the table *)

Lemma dict_to_list_keyed (r : pydict) :
  keyed r → dict_to_list record_keys r = Ok (row_of record_keys r).
Proof.
  intros Hr. unfold dict_to_list. rewrite Hr.
  by replace (forallb (λ k, text_in k record_keys) record_keys) with true
    by (by vm_compute).
Qed.

Lemma dict_to_list_header :
  dict_to_list record_keys ((λ k, (k, PStr k)) <$> record_keys) =
    Ok (PStr <$> record_keys).
Proof. by vm_compute. Qed.

Lemma set_fs_same (w : world) : set_fs (fs w) w = w.
Proof. by destruct w. Qed.

Lemma encodable_prefix_all (lines : list text) :
  forallb encodable lines = true → encodable_prefix lines = lines.
Proof.
  induction lines as [|line rest IH]; [done|]. simpl.
  destruct (encodable line); [|done]. simpl. intros H. by rewrite IH.
Qed.

Lemma writerows_keyed (csvfile : text) (rows : list pydict) (w : world)
    (data : text) :
  Forall keyed rows → fs w !! csvfile = Some data →
  writerows csvfile record_keys rows w =
    (if forallb encodable (csv_row <$> (row_of record_keys <$> rows))
     then Ok tt else Raise UnicodeEncodeError,
     set_fs (<[csvfile :=
                 data ++ concat (encodable_prefix
                                   (csv_row <$> (row_of record_keys <$> rows)))]>
               (fs w)) w).
Proof.
  intros H. revert w data. induction H as [|r rs Hr _ IH]; intros w data Hd.
  - simpl. rewrite app_nil_r, (insert_id _ _ _ Hd). by rewrite set_fs_same.
  - cbn [writerows]. unfold writerow, mbind, M_bind, bind, lift, file_write.
    rewrite (dict_to_list_keyed _ Hr), Hd. cbn [default].
    cbn [fmap list_fmap forallb encodable_prefix].
    destruct (encodable (csv_row (row_of record_keys r))).
    + rewrite (IH _ (data ++ csv_row (row_of record_keys r)))
        by (cbn; apply lookup_insert_eq).
      cbn. by rewrite insert_insert_eq, <- app_assoc.
    + cbn. rewrite app_nil_r, (insert_id _ _ _ Hd). by rewrite set_fs_same.
Qed.

Lemma write_csv_keyed (output_file : text) (first : pydict)
    (rest : list pydict) (w : world) :
  Forall keyed (first :: rest) →
  write_csv output_file (first :: rest) w =
    if writable w output_file
    then if forallb encodable
              (table_lines (PStr <$> dict_keys first)
                 (row_of (dict_keys first) <$> first :: rest))
         then (Ok tt,
               logged INFO (MentionsSaved output_file)
                 (set_fs (<[output_file :=
                              table (PStr <$> dict_keys first)
                                (row_of (dict_keys first) <$> first :: rest)]>
                            (fs w)) w))
         else (Raise UnicodeEncodeError,
               set_fs (<[output_file :=
                           concat (encodable_prefix
                             (table_lines (PStr <$> dict_keys first)
                                (row_of (dict_keys first) <$> first :: rest)))]>
                         (fs w)) w)
    else (Raise OSError, w).
Proof.
  intros Hk. pose proof (Forall_inv Hk) as Hf. unfold keyed in Hf.
  unfold write_csv. rewrite Hf.
  unfold mbind, M_bind, bind, open_w.
  destruct (writable w output_file); [|done].
  unfold writeheader, writerow, mbind, M_bind, bind, lift, file_write.
  rewrite dict_to_list_header. cbn [fs set_fs].
  rewrite lookup_insert_eq. cbn [default app].
  unfold table_lines. cbn [forallb encodable_prefix].
  destruct (encodable (csv_row (PStr <$> record_keys))) eqn:Hh; [|done].
  cbn [andb fs set_fs]. rewrite insert_insert_eq.
  rewrite (writerows_keyed _ _ _ (csv_row (PStr <$> record_keys)) Hk)
    by (cbn; apply lookup_insert_eq).
  cbn [fs set_fs]. rewrite insert_insert_eq.
  destruct (forallb encodable _) eqn:Hrows; [|done].
  by rewrite (encodable_prefix_all _ Hrows).
Qed.

Lemma scrape_list_tokens_eq (self : scraper) (output_file : text) (w : world) :
  scrape_list_tokens self output_file w =
    match gather self w with
    | (Ok acc, w1) => write_csv output_file acc w1
    | (Raise e, w1) => (Raise e, w1)
    end.
Proof.
  unfold scrape_list_tokens, gather, mbind, M_bind, bind.
  destruct (get_list_members self w) as [[ms|e] w0]; [|done].
  by destruct (for_members self ms [] w0) as [[acc|e] w1].
Qed.

(** C5, as the code has it. With the records gathered, during which no
    file but the log file [twitter_scraper.log] has changed: if there
    is none, the run logs the warning, whose line goes to the log file,
    and writes nothing else; otherwise the keys of the first record are
    the five field names, and the run opens the output file, which
    empties it, and writes the header, which is these keys in their
    order, then one row per record with as many columns as the header.
    When every line can be encoded in UTF-8 the file holds the whole
    table and the run logs that it saved it; when one cannot (a lone
    surrogate in a field) the run ends there with [UnicodeEncodeError],
    the file holding the lines before that one; and when the file
    cannot be opened the run ends with the error of [open]. *)
Theorem table_written (self : scraper) (output_file : text) (w w1 : world)
    (acc : list pydict) :
  gather self w = (Ok acc, w1) →
  unchanged_but [LOG_FILE] (fs w) (fs w1) ∧
  match acc with
  | [] =>
      scrape_list_tokens self output_file w =
        (Ok tt, logged WARNING NoMentionsFound w1)
  | first :: _ =>
      dict_keys first = record_keys ∧
      length (row_of (dict_keys first) <$> acc) = length acc ∧
      Forall (λ row, length row = length (PStr <$> dict_keys first))
        (row_of (dict_keys first) <$> acc) ∧
      scrape_list_tokens self output_file w =
        if writable w1 output_file
        then if forallb encodable
                  (table_lines (PStr <$> dict_keys first)
                     (row_of (dict_keys first) <$> acc))
             then (Ok tt,
                   logged INFO (MentionsSaved output_file)
                     (set_fs (<[output_file :=
                                  table (PStr <$> dict_keys first)
                                    (row_of (dict_keys first) <$> acc)]>
                                (fs w1)) w1))
             else (Raise UnicodeEncodeError,
                   set_fs (<[output_file :=
                               concat (encodable_prefix
                                 (table_lines (PStr <$> dict_keys first)
                                    (row_of (dict_keys first) <$> acc)))]>
                             (fs w1)) w1)
        else (Raise OSError, w1)
  end.
Proof.
  intros Hg. destruct (gather_keyed _ _ _ _ Hg) as (Hk & _ & Hfs).
  split; [done|]. rewrite scrape_list_tokens_eq, Hg.
  destruct acc as [|first rest]; [done|].
  split; [exact (Forall_inv Hk)|]. split; [by rewrite length_fmap|].
  split; [|by apply write_csv_keyed].
  apply Forall_fmap, Forall_forall. intros r _. simpl.
  unfold row_of. by rewrite !length_fmap.
Qed.

Lemma unchanged_but_log (f f' : gmap text text) (path : text) :
  unchanged_but [LOG_FILE] f f' → path ≠ LOG_FILE → f' !! path = f !! path.
Proof.
  intros H Hp. apply H. intros Hin.
  apply elem_of_cons in Hin as [?|Hin]; [done|by apply elem_of_nil in Hin].
Qed.

(** C6, as the code has it. [extract_token_mentions] gives the same
    result in any two worlds and changes neither. Two runs whose
    requests meet the same outcomes, and for which the output file,
    which is not the log file, can be opened alike, end alike and write
    the same to the output file: the same content, or nothing; whatever
    the clocks, the times of the log lines, the logs and the files they
    start from. So a second run started on the output file the first
    one left leaves its content as it is. *)
Theorem runs_repeat (self : scraper) (output_file : text) (v : pyval)
    (w1 w2 : world) :
  same_responses w1 w2 →
  writable w1 output_file = writable w2 output_file →
  output_file ≠ LOG_FILE →
  ((extract_token_mentions_of self v w1).1 =
     (extract_token_mentions_of self v w2).1 ∧
   (extract_token_mentions_of self v w1).2 = w1) ∧
  (scrape_list_tokens self output_file w1).1 =
    (scrape_list_tokens self output_file w2).1 ∧
  (∃ written : option text,
    fs (scrape_list_tokens self output_file w1).2 !! output_file =
      written_to output_file written (fs w1) !! output_file ∧
    fs (scrape_list_tokens self output_file w2).2 !! output_file =
      written_to output_file written (fs w2) !! output_file) ∧
  (fs w2 !! output_file =
     fs (scrape_list_tokens self output_file w1).2 !! output_file →
   fs (scrape_list_tokens self output_file w2).2 !! output_file =
     fs w2 !! output_file).
Proof.
  intros Hsame Hwr Hout. split.
  { by destruct v. }
  assert ((scrape_list_tokens self output_file w1).1 =
            (scrape_list_tokens self output_file w2).1 ∧
          ∃ written : option text,
            fs (scrape_list_tokens self output_file w1).2 !! output_file =
              written_to output_file written (fs w1) !! output_file ∧
            fs (scrape_list_tokens self output_file w2).2 !! output_file =
              written_to output_file written (fs w2) !! output_file)
    as [Hres Hfs].
  2:{ split; [done|]. split; [done|].
      destruct Hfs as ([d|] & Hf1 & Hf2); simpl in *; [|done].
      intros Hre. rewrite Hf2, Hre, Hf1. by rewrite !lookup_insert_eq. }
  rewrite !scrape_list_tokens_eq.
  pose proof (gather_same self w1 w2 Hsame) as Hg.
  destruct (gather self w1) as [[acc1|e1] u1] eqn:H1;
    destruct (gather self w2) as [[acc2|e2] u2] eqn:H2;
    simpl in Hg; try done.
  - injection Hg as <-.
    destruct (gather_keyed _ _ _ _ H1) as (Hk & Hw1 & Hf1).
    destruct (gather_keyed _ _ _ _ H2) as (_ & Hw2 & Hf2).
    pose proof (unchanged_but_log _ _ _ Hf1 Hout) as Ho1.
    pose proof (unchanged_but_log _ _ _ Hf2 Hout) as Ho2.
    destruct acc1 as [|first rest].
    + split; [done|]. exists None. simpl.
      by rewrite !(lookup_insert_ne _ LOG_FILE output_file) by done.
    + rewrite !write_csv_keyed by done. rewrite Hw1, Hw2, <- Hwr.
      destruct (writable w1 output_file); [|by split; [|exists None]].
      destruct (forallb encodable _).
      * split; [done|]. eexists (Some _). simpl.
        rewrite !(lookup_insert_ne _ LOG_FILE output_file) by done.
        by rewrite !lookup_insert_eq.
      * split; [done|]. eexists (Some _). simpl.
        by rewrite !lookup_insert_eq.
  - injection Hg as <-. split; [done|]. exists None. simpl.
    by rewrite (unchanged_but_log _ _ _ (gather_raise_frame _ _ _ _ H1) Hout),
      (unchanged_but_log _ _ _ (gather_raise_frame _ _ _ _ H2) Hout).
Qed.

(** ** More on the Mention Extractor *)

Lemma scan_count (s : text) (f pos : nat) :
  4 * length (scan f s pos) ≤ length s - pos.
Proof.
  revert pos. induction f as [|f IH]; intros pos; simpl; [lia|].
  destruct (Nat.ltb_spec (length s) pos); [simpl; lia|].
  destruct (match_at s pos) as [e|] eqn:He.
  - apply match_at_bounds in He. specialize (IH e). simpl. lia.
  - specialize (IH (S pos)). lia.
Qed.

(** X1. A match takes at least four characters and matches do not
    overlap: a text of [n] characters has at most [n / 4] mentions. *)
Theorem extract_token_mentions_count (s : text) :
  4 * length (extract_token_mentions s) ≤ length s.
Proof.
  unfold extract_token_mentions, finditer. rewrite length_fmap.
  pose proof (scan_count s (S (length s)) 0). lia.
Qed.

Lemma lstrip_head (s : text) (c : N) :
  head (lstrip s) = Some c → is_space c = false.
Proof.
  induction s as [|x s IH]; simpl; [done|].
  destruct (is_space x) eqn:Hx; [done|]. simpl. by intros [= <-].
Qed.

Lemma last_rev (l : text) : last (rev l) = head l.
Proof. destruct l as [|x l]; [done|]. simpl. apply last_snoc. Qed.

Lemma rstrip_last (s : text) (c : N) :
  last (rstrip s) = Some c → is_space c = false.
Proof. unfold rstrip. rewrite last_rev. apply lstrip_head. Qed.

Lemma strip_head (s : text) (c : N) :
  head (strip s) = Some c → is_space c = false.
Proof.
  unfold strip. destruct (lstrip s) as [|x t] eqn:Hl; [done|].
  assert (is_space x = false) as Hx by (apply (lstrip_head s); by rewrite Hl).
  pose proof (rstrip_keep [] t x Hx) as Hr. simpl in Hr. rewrite Hr.
  simpl. by intros [= <-].
Qed.

Lemma strip_last (s : text) (c : N) :
  last (strip s) = Some c → is_space c = false.
Proof. apply rstrip_last. Qed.

(** X2. The excerpt of a mention is never empty and neither begins nor
    ends with white space. *)
Theorem extract_token_mentions_trimmed (s : text) :
  Forall (λ mt, context mt ≠ [] ∧
                (∀ c, head (context mt) = Some c → is_space c = false) ∧
                (∀ c, last (context mt) = Some c → is_space c = false))
         (extract_token_mentions s).
Proof.
  unfold extract_token_mentions. apply Forall_fmap, Forall_forall.
  intros m Hin. simpl. split; [|split].
  - rewrite (excerpt_window_split _ _ Hin).
    destruct (group1_upper _ _ Hin) as [Hlen Hup].
    destruct (finditer_match _ _ Hin) as (_ & _ & Hk & _).
    destruct (group1 s m) as [|c tok _] using rev_ind; [simpl in *; lia|].
    pose proof (proj1 (Forall_app _ _ _) Hup) as [_ Hc].
    apply Forall_cons_1 in Hc as [Hc _].
    rewrite <- app_comm_cons, <- app_assoc. simpl.
    rewrite (strip_keep _ _ _ _ _ dollar_not_space (is_upper_not_space _ Hc)).
    by destruct (lstrip _).
  - apply strip_head.
  - apply strip_last.
Qed.

(** X3. In a text of at most 104 characters the window of every match
    is the whole text: every mention has the stripped text as its
    excerpt. *)
Theorem extract_token_mentions_short (s : text) :
  length s ≤ 104 →
  Forall (λ mt, context mt = strip s) (extract_token_mentions s).
Proof.
  intros Hlen. unfold extract_token_mentions.
  apply Forall_fmap, Forall_forall. intros m Hin. simpl.
  pose proof (scan_sound _ _ _ _ Hin) as [_ Hm].
  apply match_at_bounds in Hm.
  rewrite excerpt_window_sub.
  replace (m_start m - 100) with 0 by lia.
  replace (Nat.min (length s) (m_end m + 100)) with (length s) by lia.
  by rewrite sub_whole.
Qed.

(** X4. A match with at least 100 characters before it and 100 after
    it has a window of exactly 200 characters more than the match: the
    100 before, the dollar and the token, the 100 after. *)
Theorem excerpt_window_interior (s : text) (n : nat) (mt : mention) (m : rmatch) :
  extract_token_mentions s !! n = Some mt →
  finditer s !! n = Some m →
  100 ≤ m_start m →
  m_end m + 100 ≤ length s →
  length (excerpt_window s m) = 201 + length (token mt) ∧
  excerpt_window s m =
    sub s (m_start m - 100) (m_start m) ++ (DOLLAR :: token mt) ++
    sub s (m_end m) (m_end m + 100).
Proof.
  unfold extract_token_mentions. rewrite list_lookup_fmap.
  intros Hmt Hn Hs He. rewrite Hn in Hmt. injection Hmt as <-. simpl.
  assert (m ∈ finditer s) as Hin by (by eapply list_elem_of_lookup_2).
  destruct (group1_upper _ _ Hin) as [Hlen _].
  destruct (finditer_match _ _ Hin) as (Hend & _).
  split.
  - rewrite excerpt_window_sub, sub_length by lia. lia.
  - rewrite (excerpt_window_split _ _ Hin).
    by replace (Nat.min (length s) (m_end m + 100)) with (m_end m + 100) by lia.
Qed.

(** ** More on the two requests *)

Lemma failure_of_none (status : Z) (body : option pyval) :
  failure_of (Response status body) = None →
  ((400 <=? status)%Z && (status <? 600)%Z) = false.
Proof. simpl. by destruct ((400 <=? status)%Z && (status <? 600)%Z). Qed.

(** X5. From a response that lists member objects with identifiers,
    [get_list_members] returns the identifiers in the order of the
    list, and logs nothing. *)
Theorem get_list_members_ids (self : scraper) (w : world)
    (members ids : list pyval) :
  serves (net w (calls w)) members →
  Forall2 has_id members ids →
  get_list_members self w =
    (Ok ids, sent_request (members_request self) w).
Proof.
  intros (body & Hf & Hd)%serves_data Hids.
  rewrite get_list_members_eq. unfold members_result.
  rewrite Hf. simpl. rewrite Hd. simpl.
  by rewrite (result_map_ids _ _ Hids).
Qed.

(** X6. A response without error status whose body is JSON but not an
    object (an array, a string, a number, [null]) makes both methods
    raise [AttributeError], [get_user_tweets] for a look-back whose
    start time can be computed, so that the request is made; the
    handler does not take it and nothing is logged. *)
Theorem non_object_body_raises (self : scraper) (user_id : pyval) (days : Z)
    (w : world) (status : Z) (v : pyval) :
  net w (calls w) = Response status (Some v) →
  failure_of (net w (calls w)) = None →
  (∀ d, v ≠ PDict d) →
  window_fits (clock w (reads w)) days →
  get_list_members self w =
    (Raise AttributeError, sent_request (members_request self) w) ∧
  get_user_tweets self user_id days w =
    (Raise AttributeError,
     sent_request
       (tweets_request self user_id
          (clock w (reads w) - days * MICROSECONDS_PER_DAY))
       (read_clock w)).
Proof.
  intros Hn Hf Hv Hfit. rewrite Hn in Hf. apply failure_of_none in Hf.
  rewrite get_list_members_eq, (get_user_tweets_eq _ _ _ _ Hfit). cbv zeta.
  unfold members_result, user_tweets_result, data_of, recovered, caught.
  rewrite Hn. simpl. rewrite Hf.
  destruct v; try done. by destruct (Hv items).
Qed.

(** X7. When the field [data] holds something else than a list: the
    empty object and the empty string give the empty list; any other
    value makes both methods raise [TypeError], at the loop for
    [null], a boolean or a number, at the first item for an object or
    a string, whose items are strings ([get_user_tweets] for a
    look-back whose start time can be computed). *)
Theorem data_not_a_list (self : scraper) (user_id : pyval) (days : Z)
    (w : world) (body : pydict) (v : pyval) :
  answers (net w (calls w)) body →
  dict_get body (lit "data") = Some v →
  (∀ items, v ≠ PList items) →
  window_fits (clock w (reads w)) days →
  get_list_members self w =
    (if no_items v then Ok [] else Raise TypeError,
     sent_request (members_request self) w) ∧
  get_user_tweets self user_id days w =
    (if no_items v then Ok [] else Raise TypeError,
     sent_request
       (tweets_request self user_id
          (clock w (reads w) - days * MICROSECONDS_PER_DAY))
       (read_clock w)).
Proof.
  intros Ha Hd Hv Hfit. apply answers_fetched in Ha.
  rewrite get_list_members_eq, (get_user_tweets_eq _ _ _ _ Hfit). cbv zeta.
  unfold members_result, user_tweets_result, data_of, recovered, caught.
  rewrite Ha. simpl. rewrite Hd. simpl.
  destruct v as [| | | |s|items|d]; try done.
  - by destruct s.
  - by destruct (Hv items).
  - by destruct d as [|[k x] d].
Qed.

Lemma tweets_result_raise_at (user_id : pyval) (pre rest : list pyval)
    (t : pyval) (recs : list (list pydict)) (acc : list pydict) (e : exn) :
  Forall2 (λ x r, post_outcome user_id x (Ok r)) pre recs →
  tweet_result user_id t = Raise e →
  tweets_result user_id (pre ++ t :: rest) acc = Raise e.
Proof.
  intros H Ht. revert acc. induction H as [|x r xs rs Hx _ IH]; intros acc; simpl.
  - by rewrite Ht.
  - rewrite (tweet_result_outcome _ _ _ Hx). simpl. apply IH.
Qed.

Lemma result_map_raise_at (pre rest ids : list pyval) (m : pyval) (e : exn) :
  Forall2 has_id pre ids →
  py_getitem m (lit "id") = Raise e →
  result_map (λ member, py_getitem member (lit "id")) (pre ++ m :: rest)
    = Raise e.
Proof.
  intros H Hm. induction H as [|x i xs is_ (d & -> & Hd) _ IH]; simpl.
  - by rewrite Hm.
  - rewrite Hd. simpl. by rewrite IH.
Qed.

Lemma ill_typed_post_raises (user_id t : pyval) :
  ill_typed_post t → tweet_result user_id t = Raise TypeError.
Proof.
  intros [Ht|(d & v & -> & Hd & Hv)]; unfold tweet_result.
  - destruct t; try done. by destruct (Ht items).
  - simpl. rewrite Hd. simpl. destruct v; try done. by destruct (Hv s).
Qed.

(** X8. A member that is not an object makes [get_list_members] raise
    [TypeError]; a post that is not an object, or whose [text] is not
    a string, makes [get_user_tweets] raise [TypeError], for a
    look-back whose start time can be computed. The handler takes
    neither, and the records of the posts before are lost with the
    exception. *)
Theorem ill_typed_items_raise (self : scraper) (user_id : pyval) (days : Z)
    (wm : world) (members_pre members_rest ids : list pyval) (m : pyval)
    (wp : world) (pre rest : list pyval) (recs : list (list pydict))
    (t : pyval) :
  serves (net wm (calls wm)) (members_pre ++ m :: members_rest) →
  Forall2 has_id members_pre ids →
  (∀ d, m ≠ PDict d) →
  serves (net wp (calls wp)) (pre ++ t :: rest) →
  Forall2 (λ x r, post_outcome user_id x (Ok r)) pre recs →
  ill_typed_post t →
  window_fits (clock wp (reads wp)) days →
  get_list_members self wm =
    (Raise TypeError, sent_request (members_request self) wm) ∧
  get_user_tweets self user_id days wp =
    (Raise TypeError,
     sent_request
       (tweets_request self user_id
          (clock wp (reads wp) - days * MICROSECONDS_PER_DAY))
       (read_clock wp)).
Proof.
  intros Hms Hids Hm Hts Hpre Ht Hfit. split.
  - rewrite get_list_members_eq.
    destruct (serves_data _ _ Hms) as (body & Hf & Hd).
    unfold members_result. rewrite Hf. simpl. rewrite Hd. simpl.
    rewrite (result_map_raise_at _ _ _ m TypeError Hids); [done|].
    destruct m; try done. by destruct (Hm items).
  - rewrite (get_user_tweets_eq _ _ _ _ Hfit).
    destruct (serves_data _ _ Hts) as (body & Hf & Hd).
    unfold user_tweets_result. rewrite Hf. simpl. rewrite Hd. simpl.
    by rewrite (tweets_result_raise_at _ _ _ _ _ _ _ Hpre
                  (ill_typed_post_raises _ _ Ht)).
Qed.

(** X9. A response without error status whose body is not JSON: when
    the error of [json()] is a [RequestException], the handler logs it
    and the method returns the empty list; when it is not, the error
    leaves the method ([get_user_tweets] for a look-back whose start
    time can be computed, so that the request is made). *)
Theorem body_not_json (self : scraper) (user_id : pyval) (days : Z)
    (w : world) (status : Z) :
  net w (calls w) = Response status None →
  failure_of (net w (calls w)) = None →
  window_fits (clock w (reads w)) days →
  get_list_members self w =
    (if json_error_is_request_exception
     then (Ok [], logged ERROR (ErrorFetchingListMembers JSONDecodeError)
                    (sent_request (members_request self) w))
     else (Raise JSONDecodeError, sent_request (members_request self) w)) ∧
  get_user_tweets self user_id days w =
    (if json_error_is_request_exception
     then (Ok [], logged ERROR (ErrorFetchingTweets user_id JSONDecodeError)
                    (sent_request
                       (tweets_request self user_id
                          (clock w (reads w) - days * MICROSECONDS_PER_DAY))
                       (read_clock w)))
     else (Raise JSONDecodeError,
           sent_request
             (tweets_request self user_id
                (clock w (reads w) - days * MICROSECONDS_PER_DAY))
             (read_clock w))).
Proof.
  intros Hn Hf Hfit. rewrite Hn in Hf. apply failure_of_none in Hf.
  rewrite get_list_members_eq, (get_user_tweets_eq _ _ _ _ Hfit). cbv zeta.
  unfold members_result, user_tweets_result, recovered, caught.
  rewrite Hn. simpl. rewrite Hf. simpl.
  by destruct json_error_is_request_exception.
Qed.

(** ** The records returned *)

Lemma token_tweet_shape (user_id tweet : pyval) (s : text) (mt : mention)
    (r : pydict) :
  mt ∈ extract_token_mentions s →
  token_tweet user_id tweet mt = Ok r → well_shaped user_id r.
Proof.
  unfold extract_token_mentions. intros (m & -> & Hin)%list_elem_of_fmap.
  unfold token_tweet.
  destruct (py_getitem tweet (lit "id")) as [i|]; [|done]. simpl.
  destruct (py_getitem tweet (lit "created_at")) as [c|]; [|done]. simpl.
  intros [= <-]. exists i, c, (group1 s m), (strip (excerpt_window s m)).
  split; [done|].
  destruct (group1_upper _ _ Hin) as [Hlen Hup].
  destruct (finditer_match _ _ Hin) as (_ & _ & Hk & _).
  split; [lia|done].
Qed.

Lemma result_map_shape (user_id tweet : pyval) (s : text) (ms : list mention)
    (rs : list pydict) :
  Forall (λ mt, mt ∈ extract_token_mentions s) ms →
  result_map (token_tweet user_id tweet) ms = Ok rs →
  Forall (well_shaped user_id) rs.
Proof.
  intros H. revert rs. induction H as [|mt ms Hmt _ IH]; intros rs; simpl.
  - by intros [= <-].
  - destruct (token_tweet user_id tweet mt) as [r|] eqn:Hr; [|done]. simpl.
    destruct (result_map _ ms) as [rs'|]; [|done]. simpl.
    intros [= <-]. constructor; [by eapply token_tweet_shape|by apply IH].
Qed.

Lemma tweet_result_shape (user_id tweet : pyval) (rs : list pydict) :
  tweet_result user_id tweet = Ok rs → Forall (well_shaped user_id) rs.
Proof.
  unfold tweet_result.
  destruct (py_getitem tweet (lit "text")) as [v|]; [|done]. simpl.
  destruct v; try done.
  destruct (extract_token_mentions s) as [|mt ms] eqn:Hms.
  - by intros [= <-].
  - apply (result_map_shape user_id tweet s (mt :: ms)).
    rewrite <- Hms. by apply Forall_forall.
Qed.

Lemma tweets_result_shape (user_id : pyval) (tweets : list pyval)
    (acc rs : list pydict) :
  Forall (well_shaped user_id) acc →
  tweets_result user_id tweets acc = Ok rs → Forall (well_shaped user_id) rs.
Proof.
  revert acc. induction tweets as [|t ts IH]; intros acc Hacc; simpl.
  - by intros [= <-].
  - destruct (tweet_result user_id t) as [recs|] eqn:Ht; [|done]. simpl.
    apply IH. apply Forall_app. split; [done|by eapply tweet_result_shape].
Qed.

Lemma user_tweets_shape (user_id : pyval) (o : http_outcome) (rs : list pydict) :
  recovered (user_tweets_result user_id o) = Ok rs →
  Forall (well_shaped user_id) rs.
Proof.
  unfold recovered. destruct (caught _).
  { by intros [= <-]. }
  unfold user_tweets_result.
  destruct (fetched o) as [body|]; [|done]. simpl.
  destruct (data_of body) as [ts|]; [|done]. simpl.
  by apply tweets_result_shape.
Qed.

(** X10. Whatever the response holds, every record that
    [get_user_tweets] returns has the five items [user_id], [tweet_id],
    [created_at], [token], [narrative] in this order, the account asked
    for as [user_id], a token of 3 to 10 capitals and a string as
    excerpt. *)
Theorem get_user_tweets_shape (self : scraper) (user_id : pyval) (days : Z)
    (w w' : world) (rs : list pydict) :
  get_user_tweets self user_id days w = (Ok rs, w') →
  Forall (well_shaped user_id) rs.
Proof.
  rewrite get_user_tweets_start.
  destruct (start_of (clock w (reads w)) days) as [start_time|]; [|done].
  cbv zeta. intros [= Hr _]. by apply user_tweets_shape in Hr.
Qed.

(** ** What a call and a run do to the world *)

Lemma after_request_rest (r : request) (err : option message) (w : world) :
  sent (after_request r err w) = sent w ++ [r] ∧
  clock (after_request r err w) = clock w ∧
  reads (after_request r err w) = reads w ∧
  slept (after_request r err w) = slept w.
Proof. by destruct err. Qed.

(** *** What the handler takes *)

Lemma py_getitem_local (v : pyval) (k : text) (e : exn) :
  py_getitem v k = Raise e → is_request_exception e = false.
Proof.
  destruct v; simpl; try by intros [= <-].
  destruct (dict_get items k); [done|by intros [= <-]].
Qed.

Lemma result_map_local {A B} (f : A → result B) (l : list A) (e : exn) :
  (∀ x e', f x = Raise e' → is_request_exception e' = false) →
  result_map f l = Raise e → is_request_exception e = false.
Proof.
  intros Hf. induction l as [|x l IH]; simpl; [done|].
  destruct (f x) as [y|e'] eqn:Hx; simpl.
  - destruct (result_map f l) as [ys|e']; simpl; [done|].
    intros [= <-]. by apply IH.
  - intros [= <-]. by eapply Hf.
Qed.

Lemma token_tweet_local (user_id tweet : pyval) (mt : mention) (e : exn) :
  token_tweet user_id tweet mt = Raise e → is_request_exception e = false.
Proof.
  unfold token_tweet.
  destruct (py_getitem tweet (lit "id")) as [i|e'] eqn:Hi; simpl.
  - destruct (py_getitem tweet (lit "created_at")) as [c|e'] eqn:Hc; simpl;
      [done|].
    intros [= <-]. by eapply py_getitem_local.
  - intros [= <-]. by eapply py_getitem_local.
Qed.

Lemma tweet_result_local (user_id tweet : pyval) (e : exn) :
  tweet_result user_id tweet = Raise e → is_request_exception e = false.
Proof.
  unfold tweet_result.
  destruct (py_getitem tweet (lit "text")) as [v|e'] eqn:Ht; simpl.
  2:{ intros [= <-]. by eapply py_getitem_local. }
  destruct v; try by intros [= <-].
  destruct (extract_token_mentions s) as [|mt ms]; [done|].
  apply (result_map_local (token_tweet user_id tweet) (mt :: ms)).
  intros x e'. apply token_tweet_local.
Qed.

Lemma tweets_result_local (user_id : pyval) (tweets : list pyval)
    (acc : list pydict) (e : exn) :
  tweets_result user_id tweets acc = Raise e → is_request_exception e = false.
Proof.
  revert acc. induction tweets as [|t ts IH]; intros acc; simpl; [done|].
  destruct (tweet_result user_id t) as [recs|e'] eqn:Ht; simpl.
  - apply IH.
  - intros [= <-]. by eapply tweet_result_local.
Qed.

Lemma data_of_local (body : pyval) (e : exn) :
  data_of body = Raise e → is_request_exception e = false.
Proof.
  unfold data_of. destruct body; simpl; try by intros [= <-].
  destruct (from_option id (PList []) (dict_get items (lit "data")));
    simpl; try done; by intros [= <-].
Qed.

Lemma caught_local {A} (r : result A) :
  (∀ e, r = Raise e → is_request_exception e = false) → caught r = None.
Proof.
  destruct r as [a|e]; [done|]. intros H. simpl. by rewrite (H e).
Qed.

Lemma caught_after_fetch {A} (o : http_outcome) (k : pyval → result A) :
  (∀ body e, k body = Raise e → is_request_exception e = false) →
  caught (result_bind (fetched o) k) = handled o.
Proof.
  intros Hk. destruct o as [cause|status body]; [done|]. simpl.
  destruct ((400 <=? status)%Z && (status <? 600)%Z); [done|].
  destruct body as [v|]; simpl; [|done].
  apply caught_local, Hk.
Qed.

Lemma caught_members (o : http_outcome) :
  caught (members_result o) = handled o.
Proof.
  apply caught_after_fetch. intros body e.
  destruct (data_of body) as [ms|e'] eqn:Hd; simpl.
  - apply result_map_local. intros x e'. apply py_getitem_local.
  - intros [= <-]. by eapply data_of_local.
Qed.

Lemma caught_user_tweets (user_id : pyval) (o : http_outcome) :
  caught (user_tweets_result user_id o) = handled o.
Proof.
  apply caught_after_fetch. intros body e.
  destruct (data_of body) as [ts|e'] eqn:Hd; simpl.
  - apply tweets_result_local.
  - intros [= <-]. by eapply data_of_local.
Qed.

Lemma start_of_ok (now days start_time : Z) :
  start_of now days = Ok start_time →
  start_time = (now - days * MICROSECONDS_PER_DAY)%Z.
Proof.
  unfold start_of, timedelta, datetime_sub.
  destruct ((-999999999 <=? days)%Z && (days <=? 999999999)%Z); [|done].
  cbn [result_bind]. cbv zeta.
  repeat match goal with
         | |- context [if ?b then _ else _] => destruct b
         end; by intros [= <-].
Qed.

Lemma start_of_out_of_range (now days : Z) :
  (days < -999999999 ∨ 999999999 < days)%Z →
  start_of now days = Raise OverflowError.
Proof.
  intros H. unfold start_of, timedelta.
  replace ((-999999999 <=? days)%Z && (days <=? 999999999)%Z) with false;
    [done|].
  symmetry. apply andb_false_iff. rewrite !Z.leb_gt. lia.
Qed.

(** X11. Each of the two methods issues at most one request: no retry
    and no second page. [get_list_members] issues exactly one.
    [get_user_tweets] reads the clock once; when the number of days is
    beyond 999999999 either way the start time cannot be computed, and
    whenever it cannot the error leaves the method with no request
    issued and nothing logged; otherwise the method asks once, for the
    posts since [days] days before the reading. Neither method sleeps
    nor touches a file other than the log file. The log grows by one
    error entry precisely when the handler took an exception, that is
    when the request met a transport fault or an error status, or a
    body that is not JSON whose error is a [RequestException]; the
    entry names that exception, and the result is then the empty list;
    otherwise the log is as before. *)
Theorem one_request_per_call (self : scraper) (user_id : pyval) (days : Z)
    (w : world) :
  (calls (get_list_members self w).2 = S (calls w) ∧
   sent (get_list_members self w).2 = sent w ++ [members_request self] ∧
   reads (get_list_members self w).2 = reads w ∧
   slept (get_list_members self w).2 = slept w ∧
   unchanged_but [LOG_FILE] (fs w) (fs (get_list_members self w).2) ∧
   match handled (net w (calls w)) with
   | Some e =>
       log (get_list_members self w).2 =
         log w ++ [(ERROR, ErrorFetchingListMembers e)] ∧
       (get_list_members self w).1 = Ok []
   | None => log (get_list_members self w).2 = log w
   end) ∧
  (reads (get_user_tweets self user_id days w).2 = S (reads w) ∧
   slept (get_user_tweets self user_id days w).2 = slept w ∧
   unchanged_but [LOG_FILE] (fs w) (fs (get_user_tweets self user_id days w).2) ∧
   ((days < -999999999 ∨ 999999999 < days)%Z →
    start_of (clock w (reads w)) days = Raise OverflowError) ∧
   match start_of (clock w (reads w)) days with
   | Raise e =>
       (get_user_tweets self user_id days w).1 = Raise e ∧
       calls (get_user_tweets self user_id days w).2 = calls w ∧
       sent (get_user_tweets self user_id days w).2 = sent w ∧
       log (get_user_tweets self user_id days w).2 = log w ∧
       fs (get_user_tweets self user_id days w).2 = fs w
   | Ok start_time =>
       start_time = (clock w (reads w) - days * MICROSECONDS_PER_DAY)%Z ∧
       calls (get_user_tweets self user_id days w).2 = S (calls w) ∧
       sent (get_user_tweets self user_id days w).2 =
         sent w ++ [tweets_request self user_id start_time] ∧
       match handled (net w (calls w)) with
       | Some e =>
           log (get_user_tweets self user_id days w).2 =
             log w ++ [(ERROR, ErrorFetchingTweets user_id e)] ∧
           (get_user_tweets self user_id days w).1 = Ok []
       | None => log (get_user_tweets self user_id days w).2 = log w
       end
   end).
Proof.
  split.
  - rewrite get_list_members_eq. cbv zeta. unfold recovered.
    rewrite caught_members.
    destruct (handled (net w (calls w))) as [e|]; cbn;
      (split; [done|]); (split; [done|]); (split; [done|]);
      (split; [done|]); (split; [|done]).
    + apply (logged_files ERROR (ErrorFetchingListMembers e)
               (sent_request (members_request self) w)).
    + apply unchanged_but_refl.
  - rewrite get_user_tweets_start.
    pose proof (start_of_ok (clock w (reads w)) days) as Hok.
    pose proof (start_of_out_of_range (clock w (reads w)) days) as Hout.
    destruct (start_of (clock w (reads w)) days) as [start_time|e0].
    2:{ cbn. split; [done|]. split; [done|].
        split; [apply unchanged_but_refl|]. by split. }
    cbv zeta. unfold recovered. rewrite caught_user_tweets.
    destruct (handled (net w (calls w))) as [e|]; cbn;
      (split; [done|]); (split; [done|]); (split; [|split; [done|]]).
    + apply (logged_files ERROR (ErrorFetchingTweets user_id e)
               (sent_request (tweets_request self user_id start_time)
                  (read_clock w))).
    + split; [by apply Hok|]. by split.
    + apply unchanged_but_refl.
    + split; [by apply Hok|]. by split.
Qed.

Lemma same_but_file_refl (path : text) (w : world) : same_but_file path w w.
Proof.
  unfold same_but_file. repeat (split; [done|]). apply unchanged_but_refl.
Qed.

Lemma same_but_file_trans (path : text) (w1 w2 w3 : world) :
  same_but_file path w1 w2 → same_but_file path w2 w3 →
  same_but_file path w1 w3.
Proof.
  intros (A1 & B1 & C1 & D1 & E1 & H1) (A2 & B2 & C2 & D2 & E2 & H2).
  unfold same_but_file. repeat (split; [congruence|]).
  by eapply unchanged_but_trans.
Qed.

Lemma same_but_file_insert (path data : text) (w : world) :
  same_but_file path w (set_fs (<[path := data]> (fs w)) w).
Proof.
  unfold same_but_file. repeat (split; [done|]).
  apply unchanged_but_insert, elem_of_cons. by left.
Qed.

Lemma same_but_file_logged (path : text) (l : level) (msg : message)
    (w : world) :
  same_but_file path w (logged l msg w).
Proof.
  unfold same_but_file. repeat (split; [done|]).
  apply unchanged_but_insert, elem_of_cons. right.
  apply elem_of_cons. by left.
Qed.

Lemma writerow_frame (csvfile : text) (fieldnames : list text)
    (row : pydict) (w : world) :
  same_but_file csvfile w (writerow csvfile fieldnames row w).2.
Proof.
  unfold writerow, mbind, M_bind, bind, lift, file_write.
  destruct (dict_to_list fieldnames row) as [l|]; cbn [fst snd];
    [|apply same_but_file_refl].
  destruct (encodable (csv_row l)); cbn [fst snd];
    [apply same_but_file_insert|apply same_but_file_refl].
Qed.

Lemma writerows_frame (csvfile : text) (fieldnames : list text)
    (rows : list pydict) (w : world) :
  same_but_file csvfile w (writerows csvfile fieldnames rows w).2.
Proof.
  revert w. induction rows as [|row rows IH]; intros w.
  { apply same_but_file_refl. }
  cbn [writerows]. unfold mbind, M_bind, bind.
  pose proof (writerow_frame csvfile fieldnames row w) as H1.
  destruct (writerow csvfile fieldnames row w) as [[[]|e] w1]; [|done].
  eapply same_but_file_trans; [exact H1|apply IH].
Qed.

Lemma write_csv_frame (output_file : text) (acc : list pydict) (w : world) :
  same_but_file output_file w (write_csv output_file acc w).2.
Proof.
  destruct acc as [|first rest]; [apply same_but_file_logged|].
  unfold write_csv, mbind, M_bind, bind, open_w.
  destruct (writable w output_file); [|apply same_but_file_refl].
  pose proof (same_but_file_insert output_file [] w) as H0.
  set (w0 := set_fs _ w) in *.
  unfold writeheader.
  match goal with |- context [writerow ?f ?k ?d w0] =>
    pose proof (writerow_frame f k d w0) as H1;
    destruct (writerow f k d w0) as [[[]|e] w1] end.
  2:{ by eapply same_but_file_trans. }
  match goal with |- context [writerows ?f ?k ?a w1] =>
    pose proof (writerows_frame f k a w1) as H2;
    destruct (writerows f k a w1) as [[[]|e] w2] end.
  2:{ eapply same_but_file_trans; [|exact H2].
      by eapply same_but_file_trans. }
  eapply same_but_file_trans; [|apply same_but_file_logged].
  eapply same_but_file_trans; [|exact H2].
  by eapply same_but_file_trans.
Qed.

Lemma for_members_frame (self : scraper) (members : list pyval)
    (acc : list pydict) (w : world) :
  let r := for_members self members acc w in
  (Z.of_nat (calls r.2) - Z.of_nat (calls w) = slept r.2 - slept w)%Z ∧
  reads r.2 + calls w = reads w + calls r.2 ∧
  calls r.2 ≤ calls w + length members ∧
  (∀ res, r.1 = Ok res → calls r.2 = calls w + length members) ∧
  clock r.2 = clock w ∧
  ∃ rs, sent r.2 = sent w ++ rs ∧ Forall (weekly_request self w) rs.
Proof.
  cbv zeta. revert acc w. induction members as [|u ms IH]; intros acc w.
  { cbn. repeat split; try done; try lia. exists []. by rewrite app_nil_r. }
  rewrite for_members_step, get_user_tweets_week. cbv zeta.
  match goal with |- context [after_request ?r ?e ?v] =>
    pose proof (after_request_frame r e v) as (Hn & Hc & _ & _);
    pose proof (after_request_rest r e v) as (Hs & Hk & Hr & Hsl);
    set (w1 := after_request r e v) in * end.
  cbn in Hc, Hs, Hk, Hr, Hsl.
  assert (weekly_request self w
            (tweets_request self u
               (clock w (reads w) - 7 * MICROSECONDS_PER_DAY))) as Hreq
    by (by exists u, (reads w)).
  destruct (recovered _) as [recs|].
  - destruct (IH (acc ++ recs) w1) as (H1 & H2 & H3 & H4 & H5 & rs & H7 & H8).
    rewrite Hc, Hr, Hsl in *. rewrite H5, H7, Hk, Hs.
    cbn [length]. repeat split; try lia.
    + intros res Hres. specialize (H4 res Hres). lia.
    + eexists (_ :: rs). split; [by rewrite <- app_assoc|].
      constructor; [done|].
      eapply Forall_impl; [exact H8|].
      intros r (u' & k & ->). exists u', k. by rewrite Hk.
  - cbn [fst snd]. rewrite Hc, Hr, Hsl, Hk, Hs. cbn [length].
    repeat split; try lia; try done.
    exists [tweets_request self u
              (clock w (reads w) - 7 * MICROSECONDS_PER_DAY)].
    split; [done|]. by constructor.
Qed.

Lemma for_members_files (self : scraper) (members : list pyval)
    (acc : list pydict) (w : world) :
  unchanged_but [LOG_FILE] (fs w) (fs (for_members self members acc w).2).
Proof.
  revert acc w. induction members as [|u ms IH]; intros acc w.
  { apply unchanged_but_refl. }
  rewrite for_members_step, get_user_tweets_week. cbv zeta.
  match goal with |- context [after_request ?r ?err _] =>
    destruct (member_step_files u r err w) as [_ Hf0] end.
  destruct (recovered _) as [recs|]; [|done].
  eapply unchanged_but_trans; [exact Hf0|apply IH].
Qed.
Lemma weekly_request_clock (self : scraper) (w w' : world) (r : request) :
  clock w' = clock w → weekly_request self w' r → weekly_request self w r.
Proof. intros Hc (u & k & ->). exists u, k. by rewrite Hc. Qed.

Lemma scrape_list_tokens_frame (self : scraper) (output_file : text)
    (w : world) :
  let r := scrape_list_tokens self output_file w in
  (Z.of_nat (calls r.2) = Z.of_nat (calls w) + 1 + (slept r.2 - slept w))%Z ∧
  reads r.2 + calls w + 1 = reads w + calls r.2 ∧
  (∃ rs, sent r.2 = sent w ++ members_request self :: rs ∧
         Forall (weekly_request self w) rs).
Proof.
  cbv zeta. unfold scrape_list_tokens, mbind, M_bind, bind.
  rewrite get_list_members_eq. cbv zeta.
  match goal with |- context [after_request ?r ?e ?v] =>
    pose proof (after_request_frame r e v) as (_ & Hc & _ & _);
    pose proof (after_request_rest r e v) as (Hs & Hk & Hr & Hsl);
    set (w0 := after_request r e v) in * end.
  destruct (recovered _) as [ms|]; cbn [fst snd].
  2:{ rewrite Hc, Hr, Hsl, Hs. repeat split; try lia; try done.
      by exists []. }
  pose proof (for_members_frame self ms [] w0) as Hfm. cbv zeta in Hfm.
  destruct Hfm as (H1 & H2 & _ & _ & H5 & rs & H7 & H8).
  assert (Forall (weekly_request self w) rs) as H9.
  { eapply Forall_impl; [exact H8|]. intros r. by apply weekly_request_clock. }
  destruct (for_members self ms [] w0) as [[acc|e] w1]; cbn [fst snd] in *.
  2:{ rewrite H7, Hs. rewrite Hc, Hr, Hsl in *.
      repeat split; try lia; try done.
      exists rs. split; [by rewrite <- app_assoc|done]. }
  pose proof (write_csv_frame output_file acc w1) as (A & B & C & D & _ & F).
  rewrite A, B, C, D. rewrite H7, Hs. rewrite Hc, Hr, Hsl in *.
  repeat split; try lia.
  exists rs. split; [by rewrite <- app_assoc|done].
Qed.

Lemma log_among (path : text) : [LOG_FILE] ⊆ [path; LOG_FILE].
Proof. intros x Hx. apply elem_of_cons. by right. Qed.

Lemma scrape_list_tokens_files (self : scraper) (output_file : text)
    (w : world) :
  unchanged_but [output_file; LOG_FILE] (fs w)
    (fs (scrape_list_tokens self output_file w).2).
Proof.
  rewrite scrape_list_tokens_eq.
  destruct (gather self w) as [[acc|e] w1] eqn:Hg.
  - pose proof (write_csv_frame output_file acc w1) as (_ & _ & _ & _ & _ & F).
    eapply unchanged_but_trans; [|exact F].
    eapply unchanged_but_more; [apply log_among|].
    by destruct (gather_keyed _ _ _ _ Hg) as (_ & _ & Hfs).
  - eapply unchanged_but_more; [apply log_among|].
    by eapply gather_raise_frame.
Qed.

(** X12. In a run every posts request comes after a pause of one
    second and one reading of the clock: when the run ends, however it
    ends, the seconds slept and the readings both equal the number of
    requests issued less the one for the members. *)
Theorem run_pauses (self : scraper) (output_file : text) (w : world) :
  (Z.of_nat (calls (scrape_list_tokens self output_file w).2) =
     Z.of_nat (calls w) + 1 +
     (slept (scrape_list_tokens self output_file w).2 - slept w))%Z ∧
  reads (scrape_list_tokens self output_file w).2 + calls w + 1 =
    reads w + calls (scrape_list_tokens self output_file w).2.
Proof.
  pose proof (scrape_list_tokens_frame self output_file w) as H.
  cbv zeta in *. tauto.
Qed.

(** X13. The requests of a run, however it ends: first the one for the
    members of the list, with the bearer token; then only posts
    requests, each with the bearer token, for at most 100 results with
    the fields [created_at,text], since seven days before a reading of
    the clock. *)
Theorem run_requests (self : scraper) (output_file : text) (w : world) :
  ∃ rs, sent (scrape_list_tokens self output_file w).2 =
          sent w ++ members_request self :: rs ∧
        Forall (weekly_request self w) rs.
Proof.
  pose proof (scrape_list_tokens_frame self output_file w) as H.
  cbv zeta in *. tauto.
Qed.

(** X14. A run, however it ends, leaves every file but the output file
    and the log file as it was. *)
Theorem run_touches_output_and_log (self : scraper) (output_file : text)
    (w : world) (p : text) :
  p ≠ output_file → p ≠ LOG_FILE →
  fs (scrape_list_tokens self output_file w).2 !! p = fs w !! p.
Proof.
  intros Hp Hl. apply scrape_list_tokens_files. intros Hin.
  apply elem_of_cons in Hin as [?|Hin]; [done|].
  apply elem_of_cons in Hin as [?|Hin]; [done|].
  by apply elem_of_nil in Hin.
Qed.


Lemma well_shaped_row (user_id : pyval) (r : pydict) :
  well_shaped user_id r → keyed r ∧ row_of record_keys r = r.*2.
Proof. by intros (i & c & tok & nar & -> & _). Qed.

Lemma for_members_shape (self : scraper) (members : list pyval)
    (acc rs : list pydict) (w w' : world) :
  Forall (λ r, ∃ u, well_shaped u r) acc →
  for_members self members acc w = (Ok rs, w') →
  Forall (λ r, ∃ u, well_shaped u r) rs.
Proof.
  revert acc w. induction members as [|u ms IH]; intros acc w Hacc.
  - by intros [= <- <-].
  - rewrite for_members_step, get_user_tweets_week. cbv zeta.
    destruct (recovered _) as [recs|] eqn:Hr; [|done].
    apply IH. apply Forall_app. split; [done|].
    apply user_tweets_shape in Hr.
    eapply Forall_impl; [exact Hr|]. intros r Hs. by exists u.
Qed.

Lemma gather_shape (self : scraper) (w w1 : world) (acc : list pydict) :
  gather self w = (Ok acc, w1) → Forall (λ r, ∃ u, well_shaped u r) acc.
Proof.
  unfold gather, mbind, M_bind, bind. rewrite get_list_members_eq. cbv zeta.
  destruct (recovered _) as [ms|]; [|done].
  intros H. by apply for_members_shape in H.
Qed.

(** X16. Every record gathered in a run is a record of some account as
    [get_user_tweets] builds them, and its row in the table is its five
    values in their order. *)
Theorem gathered_rows (self : scraper) (w w1 : world) (acc : list pydict) :
  gather self w = (Ok acc, w1) →
  Forall (λ r, (∃ u, well_shaped u r) ∧ row_of record_keys r = r.*2) acc.
Proof.
  intros Hg. apply gather_shape in Hg.
  eapply Forall_impl; [exact Hg|]. intros r [u Hu].
  split; [by exists u|].
  destruct Hu as (i & c & tok & nar & -> & _). reflexivity.
Qed.

(** X17. A run that ends normally ends in one of two ways. Either its
    last log entry says that the mentions were saved, and the output
    file, when it is not the log file, then holds a table with the five
    field names as header and the values of at least one record as
    rows; or its last log entry is the warning, and no file but the log
    file has changed. In both the log file ends with the line of that
    last entry. *)
Theorem run_endings (self : scraper) (output_file : text) (w w' : world) :
  scrape_list_tokens self output_file w = (Ok tt, w') →
  (∃ l acc data,
     log w' = l ++ [(INFO, MentionsSaved output_file)] ∧
     acc ≠ [] ∧
     (∀ p, p ≠ LOG_FILE →
        fs w' !! p =
          <[output_file :=
              table (PStr <$> record_keys) ((λ r : pydict, r.*2) <$> acc)]>
            (fs w) !! p) ∧
     fs w' !! LOG_FILE =
       Some (data ++ log_record (log_time w' (length l)) INFO
                       (MentionsSaved output_file))) ∨
  (∃ l data,
     log w' = l ++ [(WARNING, NoMentionsFound)] ∧
     unchanged_but [LOG_FILE] (fs w) (fs w') ∧
     fs w' !! LOG_FILE =
       Some (data ++ log_record (log_time w' (length l)) WARNING
                       NoMentionsFound)).
Proof.
  rewrite scrape_list_tokens_eq.
  destruct (gather self w) as [[acc|e1] w1] eqn:Hg; [|done].
  destruct (gather_keyed _ _ _ _ Hg) as (Hk & _ & Hfs).
  destruct acc as [|first rest].
  - intros [= <-]. right. exists (log w1), (default [] (fs w1 !! LOG_FILE)).
    split; [done|]. split.
    + eapply unchanged_but_trans; [exact Hfs|].
      apply (logged_files WARNING NoMentionsFound w1).
    + cbn [fs logged log_time]. by rewrite lookup_insert_eq.
  - rewrite write_csv_keyed by done.
    destruct (writable w1 output_file); [|done].
    destruct (forallb encodable _); [|done].
    intros [= <-]. left. eexists (log w1), (first :: rest), _.
    split; [done|]. split; [done|].
    assert (row_of record_keys <$> first :: rest =
              (λ r : pydict, r.*2) <$> first :: rest) as Hrows.
    { apply Forall_fmap_ext_1.
      eapply Forall_impl; [exact (gather_shape _ _ _ _ Hg)|].
      intros r [u Hu]. by apply (well_shaped_row u). }
    rewrite (Forall_inv Hk), <- Hrows. cbn [fs logged set_fs log_time]. split.
    + intros p Hp. rewrite (lookup_insert_ne _ LOG_FILE p) by done.
      destruct (decide (p = output_file)) as [->|Hne].
      * by rewrite !lookup_insert_eq.
      * rewrite !(lookup_insert_ne _ output_file p) by done.
        by apply (unchanged_but_log _ _ _ Hfs).
    + by rewrite lookup_insert_eq.
Qed.

(** X18. [main] makes the scraper, which opens the log file, and ends
    with the error of that when it cannot. Otherwise it asks for the
    members of the list named by [TWITTER_LIST_ID] with the token of
    [TWITTER_BEARER_TOKEN], each replaced by its placeholder when the
    variable is not set, and all its later requests carry the same
    token. In any case it leaves every file but [token_mentions.csv]
    and the log file as it was. *)
Theorem main_run (environ : gmap text text) (w : world) :
  (if writable w LOG_FILE
   then ∃ rs, sent (main environ w).2 =
                sent w ++
                {| url := ListMembers
                            (default (lit "your_list_id_here")
                               (environ !! lit "TWITTER_LIST_ID"));
                   authorization :=
                     default (lit "your_bearer_token_here")
                       (environ !! lit "TWITTER_BEARER_TOKEN");
                   params := None |} :: rs ∧
              Forall (λ r, authorization r =
                             default (lit "your_bearer_token_here")
                               (environ !! lit "TWITTER_BEARER_TOKEN") ∧
                           ∃ user_id, url r = UserTweets user_id) rs
   else main environ w = (Raise OSError, w)) ∧
  ∀ p, p ≠ lit "token_mentions.csv" → p ≠ LOG_FILE →
       fs (main environ w).2 !! p = fs w !! p.
Proof.
  unfold main, getenv, init, mbind, M_bind, bind. cbv zeta.
  destruct (writable w LOG_FILE); [|by split].
  match goal with |- context [scrape_list_tokens ?s ?o ?w0] =>
    pose proof (scrape_list_tokens_frame s o w0) as H;
    pose proof (scrape_list_tokens_files s o w0) as Hfs end.
  cbv zeta in H. destruct H as (_ & _ & (rs & Hs & Hrs)).
  split.
  - exists rs. split; [exact Hs|].
    eapply Forall_impl; [exact Hrs|].
    intros r (u & k & ->). split; [done|by exists u].
  - intros p Hp Hl. rewrite Hfs.
    + cbn [fs set_fs]. by rewrite lookup_insert_ne.
    + intros Hin.
      apply elem_of_cons in Hin as [?|Hin]; [done|].
      apply elem_of_cons in Hin as [?|Hin]; [done|].
      by apply elem_of_nil in Hin.
Qed.

Lemma for_members_asks (self : scraper) (members : list pyval)
    (acc res : list pydict) (w w' : world) :
  for_members self members acc w = (Ok res, w') →
  ∃ rs, sent w' = sent w ++ rs ∧ url <$> rs = UserTweets <$> members.
Proof.
  revert acc w. induction members as [|u ms IH]; intros acc w.
  - intros [= _ <-]. exists []. by rewrite app_nil_r.
  - rewrite for_members_step, get_user_tweets_week. cbv zeta.
    match goal with |- context [after_request ?r ?e ?v] =>
      pose proof (after_request_rest r e v) as (Hs & _);
      set (w1 := after_request r e v) in * end.
    cbn in Hs.
    destruct (recovered _) as [recs|]; [|done].
    intros H. apply IH in H as (rs & Hrs & Hurl).
    eexists (_ :: rs). rewrite Hrs, Hs, <- app_assoc. split; [done|].
    cbn. by rewrite Hurl.
Qed.

(** X19. In a run that ends normally the posts requests are those of
    the members that [get_list_members] returned: one request for each,
    in the order of the list. *)
Theorem run_asks_each_member (self : scraper) (output_file : text)
    (w w0 : world) (ids : list pyval) :
  get_list_members self w = (Ok ids, w0) →
  (scrape_list_tokens self output_file w).1 = Ok tt →
  ∃ rs, sent (scrape_list_tokens self output_file w).2 =
          sent w ++ members_request self :: rs ∧
        url <$> rs = UserTweets <$> ids.
Proof.
  intros Hm. unfold scrape_list_tokens, mbind, M_bind, bind. rewrite Hm.
  assert (sent w0 = sent w ++ [members_request self]) as Hs0.
  { pose proof (f_equal snd Hm) as H. rewrite get_list_members_eq in H.
    cbv zeta in H. cbn [snd] in H. rewrite <- H.
    match goal with |- context [after_request ?r ?e ?v] =>
      by destruct (after_request_rest r e v) as (-> & _) end. }
  destruct (for_members self ids [] w0) as [[acc|e] w1] eqn:Hf; [|done].
  intros _. apply for_members_asks in Hf as (rs & Hrs & Hurl).
  pose proof (write_csv_frame output_file acc w1) as (_ & B & _).
  exists rs. rewrite B, Hrs, Hs0, <- app_assoc. by split.
Qed.

End Scraper.

(** ** The theorems at sample inputs *)

(** The excerpt of the second mention of the sample sentence. *)
Lemma extract_token_mentions_excerpt_witness :
  extract_token_mentions ascii_only ascii_only sample_sentence !! 1 =
    Some {| token := lit "ETH"; context := sample_sentence |} ∧
  ∃ m, finditer ascii_only sample_sentence !! 1 = Some m ∧
    lit "ETH" = group1 sample_sentence m ∧
    sample_sentence = strip ascii_only (excerpt_window sample_sentence m) ∧
    excerpt_window sample_sentence m =
      sub sample_sentence (m_start m - 100)
        (Nat.min (length sample_sentence) (m_end m + 100)) ∧
    length (excerpt_window sample_sentence m) ≤ 201 + length (lit "ETH") ∧
    length (excerpt_window sample_sentence m) ≤ 211 ∧
    (∃ pre post, sample_sentence = pre ++ sample_sentence ++ post) ∧
    (∃ l r, sample_sentence = l ++ DOLLAR :: lit "ETH" ++ r).
Proof.
  split; [by vm_compute|].
  apply (extract_token_mentions_excerpt ascii_only ascii_only sample_sentence 1
           {| token := lit "ETH"; context := sample_sentence |}).
  by vm_compute.
Defined.

(** The window of [long_text] holds 204 characters, more than 201. *)
Lemma excerpt_window_exceeds_201 :
  extract_token_mentions ascii_only ascii_only long_text =
    [ {| token := lit "BTC"; context := long_text |} ] ∧
  finditer ascii_only long_text = [Match 100 104] ∧
  length (excerpt_window long_text (Match 100 104)) = 204 ∧
  ¬ length (excerpt_window long_text (Match 100 104)) ≤ 201.
Proof.
  split; [by vm_compute|]. split; [by vm_compute|].
  assert (length (excerpt_window long_text (Match 100 104)) = 204) as H
    by (by vm_compute).
  split; [done|]. rewrite H. lia.
Defined.

(** The text with a single capital after the dollar. *)
Lemma extract_token_mentions_none_witness :
  (∀ i k, 3 ≤ k ≤ 10 → ¬ dollar_run (lit "$A is too short") i k) ∧
  extract_token_mentions ascii_only ascii_only (lit "$A is too short") = [].
Proof.
  assert (∀ i k, 3 ≤ k ≤ 10 → ¬ dollar_run (lit "$A is too short") i k) as H.
  { intros i k Hk [Hd Hall]. destruct i as [|i].
    - destruct (Hall 1) as (c & Hc & Hup); [lia|].
      vm_compute in Hc. injection Hc as <-. discriminate Hup.
    - do 15 (destruct i as [|i]; [by vm_compute in Hd|]).
      by vm_compute in Hd. }
  split; [exact H|].
  exact (extract_token_mentions_none ascii_only ascii_only _ H).
Defined.

(** A rate-limited request: status 429. *)
Lemma request_failures_caught_witness :
  (failure_of (net failing_world (calls failing_world)) = Some (HTTPError 429) ∧
   window_fits (clock failing_world (reads failing_world)) 7) ∧
  get_list_members true plain_record sample_scraper failing_world =
    (Ok [], logged plain_record ERROR (ErrorFetchingListMembers (HTTPError 429))
              (sent_request (members_request sample_scraper) failing_world)) ∧
  get_user_tweets ascii_only ascii_only true plain_record sample_scraper (PStr (lit "1")) 7
      failing_world =
    (Ok [], logged plain_record ERROR (ErrorFetchingTweets (PStr (lit "1")) (HTTPError 429))
              (sent_request
                 (tweets_request sample_scraper (PStr (lit "1"))
                    (clock failing_world (reads failing_world)
                     - 7 * MICROSECONDS_PER_DAY))
                 (read_clock failing_world))) ∧
  scrape_list_tokens ascii_only ascii_only true plain_record plain_row
      sample_scraper
      output_path failing_world =
    (Ok tt, logged plain_record WARNING NoMentionsFound
              (logged plain_record ERROR (ErrorFetchingListMembers (HTTPError 429))
                 (sent_request (members_request sample_scraper)
                    failing_world))) ∧
  for_members ascii_only ascii_only true plain_record sample_scraper
      [PStr (lit "1"); PStr (lit "2")] [] failing_world =
    for_members ascii_only ascii_only true plain_record sample_scraper [PStr (lit "2")] []
      (logged plain_record ERROR (ErrorFetchingTweets (PStr (lit "1")) (HTTPError 429))
         (sent_request
            (tweets_request sample_scraper (PStr (lit "1"))
               (clock failing_world (reads failing_world)
                - 7 * MICROSECONDS_PER_DAY))
            (read_clock
               (slept_for 1
                  (logged plain_record INFO (ScrapingTweets (PStr (lit "1")))
                     failing_world))))).
Proof.
  split; [by split|].
  apply (request_failures_caught ascii_only ascii_only true plain_record
           plain_row sample_scraper (PStr (lit "1")) 7 output_path
           [PStr (lit "2")] [] failing_world (HTTPError 429)).
  - reflexivity.
  - reflexivity.
Defined.

(** The body of a response with nothing to list. *)
Lemma missing_data_gives_nothing_witness :
  (net empty_world (calls empty_world) =
     Response 200 (Some (PDict empty_body)) ∧
   dict_get empty_body (lit "data") = None ∧
   window_fits (clock empty_world (reads empty_world)) 7) ∧
  get_list_members true plain_record sample_scraper empty_world =
    (Ok [], sent_request (members_request sample_scraper) empty_world) ∧
  get_user_tweets ascii_only ascii_only true plain_record sample_scraper (PStr (lit "1")) 7
      empty_world =
    (Ok [], sent_request
              (tweets_request sample_scraper (PStr (lit "1"))
                 (clock empty_world (reads empty_world)
                  - 7 * MICROSECONDS_PER_DAY))
              (read_clock empty_world)).
Proof.
  split; [by repeat split|].
  exact (missing_data_gives_nothing ascii_only ascii_only true plain_record
           sample_scraper (PStr (lit "1")) 7 empty_world 200 empty_body
           eq_refl eq_refl eq_refl).
Defined.

(** A body that parses and has no field [data], being an array: both
    methods raise, and the handler does not take the exception. *)
Lemma parsed_array_raises :
  net array_world (calls array_world) = Response 200 (Some (PList [])) ∧
  get_list_members true plain_record sample_scraper array_world =
    (Raise AttributeError,
     sent_request (members_request sample_scraper) array_world) ∧
  get_user_tweets ascii_only ascii_only true plain_record sample_scraper
      (PStr (lit "1")) 7 array_world =
    (Raise AttributeError,
     sent_request
       (tweets_request sample_scraper (PStr (lit "1"))
          (clock array_world (reads array_world) - 7 * MICROSECONDS_PER_DAY))
       (read_clock array_world)).
Proof. by vm_compute. Defined.

Lemma sample_tweets_1_posts : Forall2 is_post sample_tweets_1 sample_posts_1.
Proof.
  repeat constructor; eexists; (split; [reflexivity|]); by repeat split.
Defined.

Lemma sample_tweets_2_posts : Forall2 is_post sample_tweets_2 sample_posts_2.
Proof.
  repeat constructor; eexists; (split; [reflexivity|]); by repeat split.
Defined.

Lemma ok_data_serves (items : list pyval) : serves (ok_data items) items.
Proof.
  exists [(lit "data", PList items)]. split; [|reflexivity].
  exists 200%Z. split; [reflexivity|lia].
Defined.

(** The sample run: two accounts, three posts, three mentions. *)
Lemma records_in_order_witness :
  (window_fits (clock posts_world (reads posts_world)) 7 ∧
   serves (net posts_world (calls posts_world)) sample_tweets_1 ∧
   Forall2 is_post sample_tweets_1 sample_posts_1 ∧
   serves (net run_world (calls run_world)) sample_members ∧
   Forall2 has_id sample_members (fst <$> sample_timeline) ∧
   (∀ i up, sample_timeline !! i = Some up →
      feeds (net run_world (S (calls run_world) + i)) up.2)) ∧
  get_user_tweets ascii_only ascii_only true plain_record sample_scraper (PStr (lit "1")) 7
      posts_world =
    (Ok (concat ((λ p, mention_record (PStr (lit "1")) p <$>
                         extract_token_mentions ascii_only ascii_only
                           (post_text p)) <$> sample_posts_1)),
     sent_request
       (tweets_request sample_scraper (PStr (lit "1"))
          (clock posts_world (reads posts_world) - 7 * MICROSECONDS_PER_DAY))
       (read_clock posts_world)) ∧
  ∃ w', gather ascii_only ascii_only true plain_record sample_scraper run_world =
          (Ok (concat ((λ up, account_records ascii_only ascii_only up.1 up.2)
                         <$> sample_timeline)), w').
Proof.
  assert (∀ i up, sample_timeline !! i = Some up →
      feeds (net run_world (S (calls run_world) + i)) up.2) as Htl.
  { intros [|[|i]] up Hi; [| |discriminate Hi]; injection Hi as <-; left.
    - exists sample_tweets_1.
      split; [apply ok_data_serves|apply sample_tweets_1_posts].
    - exists sample_tweets_2.
      split; [apply ok_data_serves|apply sample_tweets_2_posts]. }
  assert (Forall2 has_id sample_members (fst <$> sample_timeline)) as Hids.
  { repeat constructor; eexists; by split. }
  split.
  { split; [reflexivity|].
    split; [apply ok_data_serves|]. split; [apply sample_tweets_1_posts|].
    split; [apply ok_data_serves|]. by split. }
  exact (records_in_order ascii_only ascii_only true plain_record
           sample_scraper (PStr (lit "1")) 7 posts_world sample_tweets_1
           sample_posts_1 run_world sample_members sample_timeline
           eq_refl (ok_data_serves _) sample_tweets_1_posts
           (ok_data_serves _) Hids Htl).
Defined.

(** A post without [id] and without mention is passed over: no
    exception, no record, nothing logged. *)
Lemma post_without_id_passes :
  dict_get quiet_tweet_without_id (lit "id") = None ∧
  net quiet_posts_world (calls quiet_posts_world) =
    ok_data [PDict quiet_tweet_without_id] ∧
  (get_user_tweets ascii_only ascii_only true plain_record sample_scraper (PStr (lit "1")) 7
     quiet_posts_world).1 = Ok [] ∧
  log (get_user_tweets ascii_only ascii_only true plain_record sample_scraper
         (PStr (lit "1")) 7 quiet_posts_world).2 = [].
Proof. by vm_compute. Defined.

(** A member without [id] after one with it; a post with a mention and
    without [id] after a post without either. *)
Lemma missing_keys_raise_witness :
  (serves (net broken_members_world (calls broken_members_world))
     ([PDict [(lit "id", PStr (lit "1"))]] ++ PDict member_without_id :: []) ∧
   Forall2 has_id [PDict [(lit "id", PStr (lit "1"))]] [PStr (lit "1")] ∧
   dict_get member_without_id (lit "id") = None ∧
   window_fits (clock broken_posts_world (reads broken_posts_world)) 7 ∧
   serves (net broken_posts_world (calls broken_posts_world))
     ([PDict quiet_tweet_without_id] ++ PDict loud_tweet_without_id :: []) ∧
   Forall2 (λ x r, post_outcome ascii_only ascii_only (PStr (lit "1")) x (Ok r))
     [PDict quiet_tweet_without_id] [[]] ∧
   post_outcome ascii_only ascii_only (PStr (lit "1"))
     (PDict loud_tweet_without_id) (Raise (KeyError (lit "id")))) ∧
  get_list_members true plain_record sample_scraper broken_members_world =
    (Raise (KeyError (lit "id")),
     sent_request (members_request sample_scraper) broken_members_world) ∧
  (∃ key, KeyError (lit "id") = KeyError key ∧
          key ∈ [lit "text"; lit "id"; lit "created_at"]) ∧
  get_user_tweets ascii_only ascii_only true plain_record sample_scraper (PStr (lit "1")) 7
      broken_posts_world =
    (Raise (KeyError (lit "id")),
     sent_request
       (tweets_request sample_scraper (PStr (lit "1"))
          (clock broken_posts_world (reads broken_posts_world)
           - 7 * MICROSECONDS_PER_DAY))
       (read_clock broken_posts_world)).
Proof.
  assert (Forall2 has_id [PDict [(lit "id", PStr (lit "1"))]] [PStr (lit "1")])
    as Hids by (repeat constructor; eexists; by split).
  assert (Forall2
            (λ x r, post_outcome ascii_only ascii_only (PStr (lit "1")) x (Ok r))
            [PDict quiet_tweet_without_id] [[]]) as Hpre.
  { repeat constructor. by apply (po_no_mention _ _ _ _ (lit "gm")). }
  assert (post_outcome ascii_only ascii_only (PStr (lit "1"))
            (PDict loud_tweet_without_id) (Raise (KeyError (lit "id")))) as Ht.
  { apply (po_no_id _ _ _ _ (lit "$BTC to the moon")); [done| |done].
    intros H. vm_compute in H. discriminate H. }
  split.
  { split; [apply ok_data_serves|]. split; [exact Hids|]. split; [done|].
    split; [reflexivity|].
    split; [apply ok_data_serves|]. by split. }
  exact (missing_keys_raise ascii_only ascii_only true plain_record
           sample_scraper (PStr (lit "1")) 7 broken_members_world
           [PDict [(lit "id", PStr (lit "1"))]] [] [PStr (lit "1")]
           member_without_id broken_posts_world
           [PDict quiet_tweet_without_id] [] [[]]
           (PDict loud_tweet_without_id) (KeyError (lit "id"))
           (ok_data_serves _) Hids eq_refl eq_refl (ok_data_serves _) Hpre Ht).
Defined.

(** The sample run gathers the three records, then writes the table. *)
Lemma table_written_witness :
  gather ascii_only ascii_only true plain_record sample_scraper run_world =
    (Ok sample_records, gathered_world) ∧
  unchanged_but [LOG_FILE] (fs run_world) (fs gathered_world) ∧
  dict_keys (sample_record "1" "10" "2024-05-01T10:00:00.000Z" "BTC"
               "Check out $BTC and $ETH today") = record_keys ∧
  length (row_of record_keys <$> sample_records) = length sample_records ∧
  Forall (λ row, length row = length (PStr <$> record_keys))
    (row_of record_keys <$> sample_records) ∧
  scrape_list_tokens ascii_only ascii_only true plain_record plain_row
      sample_scraper output_path run_world =
    (Ok tt,
     logged plain_record INFO (MentionsSaved output_path)
       (set_fs (<[output_path :=
                    table plain_row (PStr <$> record_keys)
                      (row_of record_keys <$> sample_records)]>
                  (fs gathered_world)) gathered_world)).
Proof.
  assert (gather ascii_only ascii_only true plain_record sample_scraper
            run_world = (Ok sample_records, gathered_world)) as Hg
    by (by vm_compute).
  split; [exact Hg|].
  exact (table_written ascii_only ascii_only true plain_record plain_row
           sample_scraper output_path run_world gathered_world sample_records
           Hg).
Defined.

(** With nothing gathered and the log file as output path, the run
    writes the line of the warning to the output file. With a record
    that UTF-8 cannot encode, the run ends with the error of the write,
    and the output file holds the header alone. *)
Lemma run_writes_otherwise :
  (gather ascii_only ascii_only true plain_record sample_scraper empty_world).1
    = Ok [] ∧
  fs empty_world !! LOG_FILE = None ∧
  fs (scrape_list_tokens ascii_only ascii_only true plain_record plain_row
        sample_scraper LOG_FILE empty_world).2 !! LOG_FILE =
    Some (plain_record 0 WARNING NoMentionsFound) ∧
  (gather ascii_only ascii_only true plain_record sample_scraper
     surrogate_world).1 =
    Ok [ [ (lit "user_id", PStr (lit "1"));
           (lit "tweet_id", PStr (lit "40"));
           (lit "created_at", PStr (lit "2024-05-03T08:00:00.000Z"));
           (lit "token", PStr (lit "BTC"));
           (lit "narrative", PStr (55296%N :: lit " $BTC")) ] ] ∧
  (scrape_list_tokens ascii_only ascii_only true plain_record plain_row
     sample_scraper output_path surrogate_world).1 = Raise UnicodeEncodeError ∧
  fs (scrape_list_tokens ascii_only ascii_only true plain_record plain_row
        sample_scraper output_path surrogate_world).2 !! output_path =
    Some (plain_row (PStr <$> record_keys)).
Proof. by vm_compute. Defined.

(** The sample run now and later: other clock, other log, a file
    already there. *)
Lemma runs_repeat_witness :
  (same_responses run_world later_world ∧
   writable run_world output_path = writable later_world output_path ∧
   output_path ≠ LOG_FILE) ∧
  ((extract_token_mentions_of ascii_only ascii_only sample_scraper
      (PStr sample_sentence) run_world).1 =
     (extract_token_mentions_of ascii_only ascii_only sample_scraper
        (PStr sample_sentence) later_world).1 ∧
   (extract_token_mentions_of ascii_only ascii_only sample_scraper
      (PStr sample_sentence) run_world).2 = run_world) ∧
  (scrape_list_tokens ascii_only ascii_only true plain_record plain_row
     sample_scraper output_path run_world).1 =
    (scrape_list_tokens ascii_only ascii_only true plain_record plain_row
       sample_scraper output_path later_world).1 ∧
  (∃ written : option text,
    fs (scrape_list_tokens ascii_only ascii_only true plain_record plain_row
          sample_scraper output_path run_world).2 !! output_path =
      written_to output_path written (fs run_world) !! output_path ∧
    fs (scrape_list_tokens ascii_only ascii_only true plain_record plain_row
          sample_scraper output_path later_world).2 !! output_path =
      written_to output_path written (fs later_world) !! output_path) ∧
  (fs later_world !! output_path =
     fs (scrape_list_tokens ascii_only ascii_only true plain_record plain_row
           sample_scraper output_path run_world).2 !! output_path →
   fs (scrape_list_tokens ascii_only ascii_only true plain_record plain_row
         sample_scraper output_path later_world).2 !! output_path =
     fs later_world !! output_path).
Proof.
  assert (same_responses run_world later_world) as Hs by (by intros n).
  assert (output_path ≠ LOG_FILE) as Hp by (by vm_compute).
  split; [by split|].
  exact (runs_repeat ascii_only ascii_only true plain_record plain_row
           sample_scraper output_path (PStr sample_sentence) run_world
           later_world Hs eq_refl Hp).
Defined.

(** The same responses at two times, with the log file as output
    path: the two runs leave different contents in the output file,
    since the line that ends it carries the time of the run. *)
Lemma output_at_log_path_differs :
  same_responses run_world later_world ∧
  writable run_world LOG_FILE = writable later_world LOG_FILE ∧
  fs (scrape_list_tokens ascii_only ascii_only true plain_record plain_row
        sample_scraper LOG_FILE run_world).2 !! LOG_FILE ≠
    fs (scrape_list_tokens ascii_only ascii_only true plain_record plain_row
          sample_scraper LOG_FILE later_world).2 !! LOG_FILE.
Proof.
  split; [by intros n|]. split; [done|].
  intros H. apply (f_equal (fmap (M := option) length)) in H.
  vm_compute in H. discriminate H.
Defined.

(** ** The further theorems at sample inputs *)

Lemma extract_token_mentions_short_witness :
  length sample_sentence ≤ 104 ∧
  Forall (λ mt, context mt = strip ascii_only sample_sentence)
    (extract_token_mentions ascii_only ascii_only sample_sentence).
Proof.
  assert (length sample_sentence ≤ 104) as H by (vm_compute; lia).
  split; [exact H|].
  exact (extract_token_mentions_short ascii_only ascii_only sample_sentence H).
Defined.

(** The mention in the middle of 304 characters. *)
Lemma excerpt_window_interior_witness :
  (extract_token_mentions ascii_only ascii_only interior_text !! 0 =
     Some {| token := lit "BTC"; context := long_text |} ∧
   finditer ascii_only interior_text !! 0 = Some (Match 150 154) ∧
   100 ≤ 150 ∧ 154 + 100 ≤ length interior_text) ∧
  length (excerpt_window interior_text (Match 150 154)) =
    201 + length (lit "BTC") ∧
  excerpt_window interior_text (Match 150 154) =
    sub interior_text (150 - 100) 150 ++ (DOLLAR :: lit "BTC") ++
    sub interior_text 154 (154 + 100).
Proof.
  assert (extract_token_mentions ascii_only ascii_only interior_text !! 0 =
            Some {| token := lit "BTC"; context := long_text |}) as H1
    by (by vm_compute).
  assert (finditer ascii_only interior_text !! 0 = Some (Match 150 154)) as H2
    by (by vm_compute).
  assert (154 + 100 ≤ length interior_text) as H3 by (vm_compute; lia).
  split; [repeat split; try done; lia|].
  apply (excerpt_window_interior ascii_only ascii_only interior_text 0
           {| token := lit "BTC"; context := long_text |} (Match 150 154)
           H1 H2); [simpl; lia|exact H3].
Defined.

Lemma sample_members_ids :
  Forall2 has_id sample_members [PStr (lit "1"); PStr (lit "2")].
Proof. repeat constructor; eexists; by split. Defined.

Lemma get_list_members_ids_witness :
  (serves (net run_world (calls run_world)) sample_members ∧
   Forall2 has_id sample_members [PStr (lit "1"); PStr (lit "2")]) ∧
  get_list_members true plain_record sample_scraper run_world =
    (Ok [PStr (lit "1"); PStr (lit "2")],
     sent_request (members_request sample_scraper) run_world).
Proof.
  split; [split; [apply ok_data_serves|apply sample_members_ids]|].
  exact (get_list_members_ids true plain_record sample_scraper run_world sample_members _
           (ok_data_serves _) sample_members_ids).
Defined.

(** The body [[]]. *)
Lemma non_object_body_raises_witness :
  (net array_world (calls array_world) = Response 200 (Some (PList [])) ∧
   failure_of (net array_world (calls array_world)) = None ∧
   (∀ d, PList [] ≠ PDict d) ∧
   window_fits (clock array_world (reads array_world)) 7) ∧
  get_list_members true plain_record sample_scraper array_world =
    (Raise AttributeError,
     sent_request (members_request sample_scraper) array_world) ∧
  get_user_tweets ascii_only ascii_only true plain_record sample_scraper (PStr (lit "1")) 7
      array_world =
    (Raise AttributeError,
     sent_request
       (tweets_request sample_scraper (PStr (lit "1"))
          (clock array_world (reads array_world) - 7 * MICROSECONDS_PER_DAY))
       (read_clock array_world)).
Proof.
  assert (∀ d, PList [] ≠ PDict d) as H by (intros d; discriminate).
  split; [by repeat split|].
  exact (non_object_body_raises ascii_only ascii_only true plain_record
           sample_scraper (PStr (lit "1")) 7 array_world 200 (PList [])
           eq_refl eq_refl H eq_refl).
Defined.

(** The body with [null] as [data]. *)
Lemma data_not_a_list_witness :
  (answers (net null_data_world (calls null_data_world)) null_data_body ∧
   dict_get null_data_body (lit "data") = Some PNone ∧
   (∀ items, PNone ≠ PList items) ∧
   window_fits (clock null_data_world (reads null_data_world)) 7) ∧
  get_list_members true plain_record sample_scraper null_data_world =
    (Raise TypeError,
     sent_request (members_request sample_scraper) null_data_world) ∧
  get_user_tweets ascii_only ascii_only true plain_record sample_scraper (PStr (lit "1")) 7
      null_data_world =
    (Raise TypeError,
     sent_request
       (tweets_request sample_scraper (PStr (lit "1"))
          (clock null_data_world (reads null_data_world)
           - 7 * MICROSECONDS_PER_DAY))
       (read_clock null_data_world)).
Proof.
  assert (answers (net null_data_world (calls null_data_world)) null_data_body)
    as Ha by (exists 200%Z; split; [reflexivity|lia]).
  assert (∀ items, PNone ≠ PList items) as H by (intros d; discriminate).
  split; [by repeat split|].
  exact (data_not_a_list ascii_only ascii_only true plain_record
           sample_scraper (PStr (lit "1")) 7 null_data_world null_data_body
           PNone Ha eq_refl H eq_refl).
Defined.

Lemma quiet_tweet_passes :
  Forall2 (λ x r, post_outcome ascii_only ascii_only (PStr (lit "1")) x (Ok r))
    [PDict quiet_tweet_without_id] [[]].
Proof. repeat constructor. by apply (po_no_mention _ _ _ _ (lit "gm")). Defined.

(** A member that is a string; a post whose text is [null]. *)
Lemma ill_typed_items_raise_witness :
  (serves (net ill_typed_members_world (calls ill_typed_members_world))
     ([PDict [(lit "id", PStr (lit "1"))]] ++ PStr (lit "2") :: []) ∧
   Forall2 has_id [PDict [(lit "id", PStr (lit "1"))]] [PStr (lit "1")] ∧
   (∀ d, PStr (lit "2") ≠ PDict d) ∧
   serves (net ill_typed_posts_world (calls ill_typed_posts_world))
     ([PDict quiet_tweet_without_id] ++ PDict tweet_with_null_text :: []) ∧
   Forall2 (λ x r, post_outcome ascii_only ascii_only (PStr (lit "1")) x (Ok r))
     [PDict quiet_tweet_without_id] [[]] ∧
   ill_typed_post (PDict tweet_with_null_text) ∧
   window_fits
     (clock ill_typed_posts_world (reads ill_typed_posts_world)) 7) ∧
  get_list_members true plain_record sample_scraper ill_typed_members_world =
    (Raise TypeError,
     sent_request (members_request sample_scraper) ill_typed_members_world) ∧
  get_user_tweets ascii_only ascii_only true plain_record sample_scraper (PStr (lit "1")) 7
      ill_typed_posts_world =
    (Raise TypeError,
     sent_request
       (tweets_request sample_scraper (PStr (lit "1"))
          (clock ill_typed_posts_world (reads ill_typed_posts_world)
           - 7 * MICROSECONDS_PER_DAY))
       (read_clock ill_typed_posts_world)).
Proof.
  assert (Forall2 has_id [PDict [(lit "id", PStr (lit "1"))]] [PStr (lit "1")])
    as Hids by (repeat constructor; eexists; by split).
  assert (∀ d, PStr (lit "2") ≠ PDict d) as Hm by (intros d; discriminate).
  assert (ill_typed_post (PDict tweet_with_null_text)) as Ht.
  { right. exists tweet_with_null_text, PNone.
    split; [done|]. split; [done|]. intros s; discriminate. }
  split.
  { split; [apply ok_data_serves|]. split; [exact Hids|]. split; [exact Hm|].
    split; [apply ok_data_serves|]. split; [apply quiet_tweet_passes|].
    split; [exact Ht|reflexivity]. }
  exact (ill_typed_items_raise ascii_only ascii_only true plain_record
           sample_scraper (PStr (lit "1")) 7 ill_typed_members_world
           [PDict [(lit "id", PStr (lit "1"))]] [] [PStr (lit "1")]
           (PStr (lit "2")) ill_typed_posts_world
           [PDict quiet_tweet_without_id] [] [[]]
           (PDict tweet_with_null_text)
           (ok_data_serves _) Hids Hm (ok_data_serves _)
           quiet_tweet_passes Ht eq_refl).
Defined.

(** A page that is not JSON, with a [requests] whose JSON error is a
    [RequestException]. *)
Lemma body_not_json_witness :
  (net html_world (calls html_world) = Response 200 None ∧
   failure_of (net html_world (calls html_world)) = None ∧
   window_fits (clock html_world (reads html_world)) 7) ∧
  get_list_members true plain_record sample_scraper html_world =
    (Ok [], logged plain_record ERROR (ErrorFetchingListMembers JSONDecodeError)
              (sent_request (members_request sample_scraper) html_world)) ∧
  get_user_tweets ascii_only ascii_only true plain_record sample_scraper (PStr (lit "1")) 7
      html_world =
    (Ok [], logged plain_record ERROR (ErrorFetchingTweets (PStr (lit "1")) JSONDecodeError)
              (sent_request
                 (tweets_request sample_scraper (PStr (lit "1"))
                    (clock html_world (reads html_world)
                     - 7 * MICROSECONDS_PER_DAY))
                 (read_clock html_world))).
Proof.
  split; [by repeat split|].
  exact (body_not_json ascii_only ascii_only true plain_record sample_scraper
           (PStr (lit "1")) 7 html_world 200 eq_refl eq_refl eq_refl).
Defined.

(** The two records of the posts of the first account. *)
Lemma get_user_tweets_shape_witness :
  get_user_tweets ascii_only ascii_only true plain_record sample_scraper (PStr (lit "1")) 7
      posts_world =
    (Ok (take 2 sample_records),
     (get_user_tweets ascii_only ascii_only true plain_record sample_scraper
        (PStr (lit "1")) 7 posts_world).2) ∧
  Forall (well_shaped (PStr (lit "1"))) (take 2 sample_records).
Proof.
  assert (get_user_tweets ascii_only ascii_only true plain_record sample_scraper
            (PStr (lit "1")) 7 posts_world =
          (Ok (take 2 sample_records),
           (get_user_tweets ascii_only ascii_only true plain_record sample_scraper
              (PStr (lit "1")) 7 posts_world).2)) as H by (by vm_compute).
  split; [exact H|].
  exact (get_user_tweets_shape ascii_only ascii_only true plain_record
           sample_scraper
           (PStr (lit "1")) 7 posts_world _ _ H).
Defined.

(** A look-back of a thousand million days: no start time, so that the
    error leaves the method with no request issued and nothing logged. *)
Lemma one_request_per_call_witness :
  start_of (clock run_world (reads run_world)) 1000000000 =
    Raise OverflowError ∧
  (get_user_tweets ascii_only ascii_only true plain_record sample_scraper
     (PStr (lit "1")) 1000000000 run_world).1 = Raise OverflowError ∧
  calls (get_user_tweets ascii_only ascii_only true plain_record
           sample_scraper (PStr (lit "1")) 1000000000 run_world).2 =
    calls run_world ∧
  sent (get_user_tweets ascii_only ascii_only true plain_record
          sample_scraper (PStr (lit "1")) 1000000000 run_world).2 =
    sent run_world ∧
  log (get_user_tweets ascii_only ascii_only true plain_record
         sample_scraper (PStr (lit "1")) 1000000000 run_world).2 =
    log run_world ∧
  fs (get_user_tweets ascii_only ascii_only true plain_record
        sample_scraper (PStr (lit "1")) 1000000000 run_world).2 =
    fs run_world.
Proof.
  split; [reflexivity|].
  exact (proj2 (proj2 (proj2 (proj2 (proj2
           (one_request_per_call ascii_only ascii_only true plain_record
              sample_scraper (PStr (lit "1")) 1000000000 run_world)))))).
Defined.

(** A file that is neither the output file nor the log file. *)
Lemma run_touches_output_and_log_witness :
  (lit "token_mentions.bak" ≠ output_path ∧
   lit "token_mentions.bak" ≠ LOG_FILE) ∧
  fs (scrape_list_tokens ascii_only ascii_only true plain_record plain_row
        sample_scraper output_path kept_world).2 !! lit "token_mentions.bak" =
    fs kept_world !! lit "token_mentions.bak".
Proof.
  assert (lit "token_mentions.bak" ≠ output_path) as H1
    by (intros H; vm_compute in H; discriminate H).
  assert (lit "token_mentions.bak" ≠ LOG_FILE) as H2
    by (intros H; vm_compute in H; discriminate H).
  split; [by split|].
  exact (run_touches_output_and_log ascii_only ascii_only true plain_record
           plain_row sample_scraper output_path kept_world _ H1 H2).
Defined.


Lemma gathered_rows_witness :
  gather ascii_only ascii_only true plain_record sample_scraper run_world =
    (Ok sample_records, gathered_world) ∧
  Forall (λ r, (∃ u, well_shaped u r) ∧ row_of record_keys r = r.*2)
    sample_records.
Proof.
  assert (gather ascii_only ascii_only true plain_record sample_scraper run_world =
            (Ok sample_records, gathered_world)) as Hg by (by vm_compute).
  split; [exact Hg|].
  exact (gathered_rows ascii_only ascii_only true plain_record sample_scraper
           run_world
           gathered_world sample_records Hg).
Defined.

(** The sample run ends with the table saved. *)
Lemma run_endings_witness :
  scrape_list_tokens ascii_only ascii_only true plain_record plain_row
      sample_scraper output_path run_world =
    (Ok tt, saved_world) ∧
  ((∃ l acc data,
      log saved_world = l ++ [(INFO, MentionsSaved output_path)] ∧
      acc ≠ [] ∧
      (∀ p, p ≠ LOG_FILE →
         fs saved_world !! p =
           <[output_path :=
               table plain_row (PStr <$> record_keys)
                 ((λ r : list (text * pyval), r.*2) <$> acc)]>
             (fs run_world) !! p) ∧
      fs saved_world !! LOG_FILE =
        Some (data ++ plain_record (log_time saved_world (length l)) INFO
                        (MentionsSaved output_path))) ∨
   (∃ l data,
      log saved_world = l ++ [(WARNING, NoMentionsFound)] ∧
      unchanged_but [LOG_FILE] (fs run_world) (fs saved_world) ∧
      fs saved_world !! LOG_FILE =
        Some (data ++ plain_record (log_time saved_world (length l)) WARNING
                        NoMentionsFound))).
Proof.
  assert (scrape_list_tokens ascii_only ascii_only true plain_record plain_row
            sample_scraper output_path run_world = (Ok tt, saved_world)) as H
    by (by vm_compute).
  split; [exact H|].
  exact (run_endings ascii_only ascii_only true plain_record plain_row
           sample_scraper output_path run_world saved_world H).
Defined.

(** The sample run asks for the posts of the accounts 1 and 2. *)
Lemma run_asks_each_member_witness :
  (get_list_members true plain_record sample_scraper run_world =
     (Ok [PStr (lit "1"); PStr (lit "2")],
      sent_request (members_request sample_scraper) run_world) ∧
   (scrape_list_tokens ascii_only ascii_only true plain_record plain_row
      sample_scraper output_path run_world).1 = Ok tt) ∧
  ∃ rs, sent (scrape_list_tokens ascii_only ascii_only true plain_record
                plain_row sample_scraper output_path run_world).2 =
          sent run_world ++ members_request sample_scraper :: rs ∧
        url <$> rs = UserTweets <$> [PStr (lit "1"); PStr (lit "2")].
Proof.
  assert (get_list_members true plain_record sample_scraper run_world =
            (Ok [PStr (lit "1"); PStr (lit "2")],
             sent_request (members_request sample_scraper) run_world)) as H1
    by (by vm_compute).
  assert ((scrape_list_tokens ascii_only ascii_only true plain_record
             plain_row sample_scraper output_path run_world).1 = Ok tt) as H2
    by (by vm_compute).
  split; [by split|].
  exact (run_asks_each_member ascii_only ascii_only true plain_record
           plain_row sample_scraper output_path run_world _ _ H1 H2).
Defined.
